(** * A shallow embedding of gptapi (src/gptapi.py, src/gptapi-old.py)

    Python values read from YAML profiles, built as request parameters or
    returned by the completion API are modelled as a JSON-like inductive;
    Python dicts are association lists (they keep insertion order, and
    [dict.update] replaces a key in place or appends it).  Exceptions are
    the [Raise] branch of [res].  The external collaborators (the file
    system read by [ConfigurationManager.load_file], tiktoken and the
    OpenAI client) are parameters of the development. *)

From Stdlib Require Import String List ZArith Lia Bool.
From Stdlib Require Import Floats.SpecFloat.
From stdpp Require Import base gmap strings.
Import ListNotations.
Open Scope string_scope.

(** ** Python values *)

Set Warnings "-register-all".

Inductive pyval : Type :=
| PNone
| PBool (b : bool)
| PInt (z : Z)
| PFloat (f : spec_float)
| PStr (s : string)
| PList (l : list pyval)
| PDict (kvs : list (string * pyval)).

(** Exceptions raised along the code paths. *)
Inductive exn : Type :=
| KeyError (k : string)
| TypeError
| AttributeError (a : string)
| IndexError
| UnboundLocalError (v : string)
| FileNotFoundError (path : string)
| RecursionError
| ValidationError
| BadRequestError (msg : string)
| CustomException (msg : string)
(** any other [Exception] subclass, by name *)
| OtherError (name : string)
(** [raise SystemExit(msg)] inside the code: a [BaseException], not caught
    by [except Exception]. *)
| SystemExitExn (msg : string).

Inductive res (A : Type) : Type :=
| Ok (a : A)
| Raise (e : exn).
Arguments Ok {A} a.
Arguments Raise {A} e.

Definition bind {A B} (m : res A) (k : A -> res B) : res B :=
  match m with Ok a => k a | Raise e => Raise e end.

Notation "'let*' x := m 'in' k" := (bind m (fun x => k))
  (at level 200, x name, m at level 100, k at level 200).

(** ** Dict operations *)

Fixpoint dict_lookup (k : string) (kvs : list (string * pyval)) : option pyval :=
  match kvs with
  | [] => None
  | (k', v) :: kvs' => if String.eqb k k' then Some v else dict_lookup k kvs'
  end.

(** [d[k] = v] / [d.update({k: v})] for one key. *)
Fixpoint dict_set (k : string) (v : pyval) (kvs : list (string * pyval))
  : list (string * pyval) :=
  match kvs with
  | [] => [(k, v)]
  | (k', v') :: kvs' =>
      if String.eqb k k' then (k', v) :: kvs' else (k', v') :: dict_set k v kvs'
  end.

Definition dict_update (upd kvs : list (string * pyval)) : list (string * pyval) :=
  fold_left (fun acc kv => dict_set (fst kv) (snd kv) acc) upd kvs.

(** [obj[k]] *)
Definition getitem (o : pyval) (k : string) : res pyval :=
  match o with
  | PDict kvs =>
      match dict_lookup k kvs with Some v => Ok v | None => Raise (KeyError k) end
  | _ => Raise TypeError
  end.

(** [obj.get(k, default)] *)
Definition dict_get (o : pyval) (k : string) (default : pyval) : res pyval :=
  match o with
  | PDict kvs =>
      match dict_lookup k kvs with Some v => Ok v | None => Ok default end
  | _ => Raise (AttributeError "get")
  end.

(** [obj.a]: attribute access on the SDK response objects, which are
    modelled as dicts of their attributes. *)
Definition getattr (o : pyval) (a : string) : res pyval :=
  match o with
  | PDict kvs =>
      match dict_lookup a kvs with Some v => Ok v | None => Raise (AttributeError a) end
  | _ => Raise (AttributeError a)
  end.

(** [lst[0]] *)
Definition index0 (o : pyval) : res pyval :=
  match o with
  | PList (x :: _) => Ok x
  | PList [] => Raise IndexError
  | _ => Raise TypeError
  end.

(** [bool(v)] *)
Definition truthy (v : pyval) : bool :=
  match v with
  | PNone => false
  | PBool b => b
  | PInt z => negb (Z.eqb z 0)
  | PFloat (S754_zero _) => false
  | PFloat _ => true
  | PStr s => negb (String.eqb s "")
  | PList l => match l with [] => false | _ => true end
  | PDict kvs => match kvs with [] => false | _ => true end
  end.

(** ** Python floats (IEEE binary64) *)

Definition prec : Z := 53.
Definition emax : Z := 1024.

(** [float(n)] for an int [n], correctly rounded. *)
Definition float_of_int (n : Z) : spec_float :=
  binary_normalize prec emax n 0 false.

(** The double nearest to 0.05, i.e. 3602879701896397 * 2^-56. *)
Definition f0_05 : spec_float := S754_finite false 3602879701896397 (-56).

Definition float_zero : spec_float := S754_zero false.

(** [int(x)] for a float: truncation toward zero; infinities and NaN raise. *)
Definition int_of_float (x : spec_float) : res Z :=
  match x with
  | S754_zero _ => Ok 0%Z
  | S754_finite s m e =>
      let q := if (0 <=? e)%Z then Z.shiftl (Zpos m) e
               else Z.shiftr (Zpos m) (- e) in
      Ok (if s then Z.opp q else q)
  | S754_infinity _ => Raise (OtherError "OverflowError")
  | S754_nan => Raise (OtherError "ValueError")
  end.

(** [total_tokens > x]: an int compared with an int, bool or float. *)
Definition int_gt (n : Z) (x : pyval) : res bool :=
  match x with
  | PInt z => Ok (Z.gtb n z)
  | PBool b => Ok (Z.gtb n (if b then 1 else 0))
  | PFloat f => Ok (SFltb f (float_of_int n))
  | _ => Raise TypeError
  end.

(** ** Request building, shared by both versions of [APICallPreparer] *)

Definition function_name : string := "format_response".
Definition function_description : string :=
  "Formats the response according to the specified schema.".

(** [messages = [{"role": "system", ...}, {"role": "user", ...}]] *)
Definition build_messages (config : pyval) (prompt : string) : res (list pyval) :=
  let* system_prompt := getitem config "system_prompt" in
  Ok [PDict [("role", PStr "system"); ("content", system_prompt)];
      PDict [("role", PStr "user"); ("content", PStr prompt)]].

(** The [parameters = {...}] literal and the structured-output
    [parameters.update(...)] that follow the token check. *)
Definition assemble_parameters (config : pyval) (messages : list pyval) : res pyval :=
  let* model := getitem config "model" in
  let* ps := getitem config "parameters" in
  let* max_tokens := getitem ps "max_tokens" in
  let* temperature := getitem ps "temperature" in
  let* top_p := getitem ps "top_p" in
  let* n := getitem ps "n" in
  let* stop := dict_get ps "stop" PNone in
  let* frequency_penalty := dict_get ps "frequency_penalty" (PFloat float_zero) in
  let* presence_penalty := dict_get ps "presence_penalty" (PFloat float_zero) in
  let parameters :=
    [("model", model); ("messages", PList messages); ("max_tokens", max_tokens);
     ("temperature", temperature); ("top_p", top_p); ("n", n); ("stop", stop);
     ("frequency_penalty", frequency_penalty);
     ("presence_penalty", presence_penalty)] in
  let* so := dict_get config "structured_output" (PDict []) in
  let* enable := dict_get so "enable" PNone in
  if truthy enable then
    let* so' := getitem config "structured_output" in
    let* function_schema := getitem so' "schema" in
    let functions :=
      PList [PDict [("name", PStr function_name);
                    ("description", PStr function_description);
                    ("parameters", function_schema)]] in
    Ok (PDict (dict_update [("functions", functions);
                            ("function_call", PDict [("name", PStr function_name)])]
                           parameters))
  else Ok (PDict parameters).

Section Tokenizer.
(** [tiktoken.encoding_for_model]: [None] for a model it cannot map; an
    encoding is its [encode] function. *)
Variable encoding_for_model : string -> option (string -> list Z).

Definition get_encoding (config : pyval) : res (string -> list Z) :=
  let* model := getitem config "model" in
  match model with
  | PStr m =>
      match encoding_for_model m with
      | Some encoding => Ok encoding
      | None => Raise (KeyError ("Could not automatically map " ++ m ++ " to a tokeniser."))
      end
  | _ => Raise TypeError
  end.

(** [sum([len(encoding.encode(m['content'])) for m in messages])] *)
Fixpoint count_tokens (encoding : string -> list Z) (messages : list pyval) : res Z :=
  match messages with
  | [] => Ok 0%Z
  | m :: ms =>
      let* content := getitem m "content" in
      match content with
      | PStr s =>
          let* rest := count_tokens encoding ms in
          Ok (Z.of_nat (List.length (encoding s)) + rest)%Z
      | _ => Raise TypeError
      end
  end.

(** [APICallPreparer.prepare_parameters] of src/gptapi.py. *)
Definition prepare_parameters (config : pyval) (prompt : string) : res pyval :=
  let* messages := build_messages config prompt in
  let* encoding := get_encoding config in
  let* total_tokens := count_tokens encoding messages in
  let* ps := getitem config "parameters" in
  let* max_tokens := getitem ps "max_tokens" in
  let* exceeded := int_gt total_tokens max_tokens in
  if exceeded then Raise (CustomException "Token limit exceeded.")
  else assemble_parameters config messages.

End Tokenizer.

(** ** The overflow policy of src/gptapi-old.py *)

Module Old.

Definition MAX_INPUT_TOKENS : Z := 120000.
Definition CUTS : nat := 3.

(** [overlap = int(len(self.prompt) * 0.05)], in binary64. *)
Definition overlap_of (n : Z) : res Z :=
  int_of_float (SFmul prec emax (float_of_int n) f0_05).

(** Python slice bounds: a negative index counts from the end, then the
    index is clamped to [0, len]. *)
Definition py_clamp (len i : Z) : Z :=
  if (i <? 0)%Z then Z.max (i + len) 0 else Z.min i len.

(** [s[:e]] *)
Definition slice_to (s : string) (e : Z) : string :=
  substring 0 (Z.to_nat (py_clamp (Z.of_nat (String.length s)) e)) s.

(** [s[b:]] *)
Definition slice_from (s : string) (b : Z) : string :=
  let b' := Z.to_nat (py_clamp (Z.of_nat (String.length s)) b) in
  substring b' (String.length s - b') s.

(** Lines 113-120: the two halves with their overlap. *)
Definition cut (prompt : string) : res (string * string) :=
  let n := Z.of_nat (String.length prompt) in
  let midpoint := (n / 2)%Z in
  let* overlap := overlap_of n in
  let start_cut := Z.max (midpoint - overlap) 0 in
  let end_cut := Z.min (midpoint + overlap) n in
  Ok (slice_to prompt end_cut, slice_from prompt start_cut).

(** Sequencing inside the recursion: [step] for a Python expression that
    may raise, [rec_step] for a recursive call, whose [None] means that the
    fuel ran out (no Python outcome). *)
Definition step {A} (r : res A) (k : A -> option (res pyval)) : option (res pyval) :=
  match r with Ok a => k a | Raise e => Some (Raise e) end.

Definition rec_step (o : option (res pyval)) (k : pyval -> option (res pyval))
  : option (res pyval) :=
  match o with
  | None => None
  | Some (Ok a) => k a
  | Some (Raise e) => Some (Raise e)
  end.

(** The Python interpreter's default recursion limit. *)
Definition PY_RECURSION_LIMIT : nat := 1000.

Section Tokenizer.
Variable encoding_for_model : string -> option (string -> list Z).

(** Lines 92-99: the token count of the two messages. *)
Definition message_tokens (config : pyval) (prompt : string) : res Z :=
  let* messages := build_messages config prompt in
  let* encoding := get_encoding encoding_for_model config in
  count_tokens encoding messages.

(** [APICallPreparer(config, prompt, cut_attempt).prepare_parameters()],
    each nested call consuming one unit of [fuel]. *)
Fixpoint prepare_fuel (fuel : nat) (config : pyval) (prompt : string)
    (cut_attempt : nat) : option (res pyval) :=
  match fuel with
  | O => None
  | S fuel' =>
    step (build_messages config prompt) (fun messages =>
    step (get_encoding encoding_for_model config) (fun encoding =>
    step (count_tokens encoding messages) (fun total_tokens =>
    if (MAX_INPUT_TOKENS <? total_tokens)%Z then
      if (CUTS <=? cut_attempt)%nat then
        Some (Raise (CustomException "Input too large, and maximum cuts exceeded."))
      else
        step (cut prompt) (fun halves =>
        let first_half := fst halves in
        let second_half := snd halves in
        rec_step (prepare_fuel fuel' config first_half (S cut_attempt))
          (fun first_parameters =>
        rec_step (prepare_fuel fuel' config second_half (S cut_attempt))
          (fun _second_parameters =>
        Some (Ok first_parameters))))
    else Some (assemble_parameters config messages))))
  end.

Definition prepare_parameters (config : pyval) (prompt : string) (cut_attempt : nat)
  : res pyval :=
  match prepare_fuel PY_RECURSION_LIMIT config prompt cut_attempt with
  | Some r => r
  | None => Raise RecursionError
  end.

End Tokenizer.
End Old.

(** ** Configuration loading and the [gptapi] pipeline of src/gptapi.py *)

Definition CREDENTIALS_KEY : string := "openai_api".
Definition PROFILES_DIR : string := "profiles".

(** What [yaml.safe_load(open(path))] finds at a path: no file
    ([open] raises [FileNotFoundError]), a file [open] or [read] fails on
    with another exception, named ([IsADirectoryError], [PermissionError],
    [UnicodeDecodeError], ...), text that is not YAML ([yaml.YAMLError]),
    or a parsed document. *)
Inductive yaml_file : Type :=
| Missing
| Unreadable (name : string)
| Malformed
| Parsed (v : pyval).

(** [base / p] for [pathlib] paths given as strings: an absolute [p]
    replaces [base]. *)
Definition path_join (base p : string) : string :=
  if String.prefix "/" p then p else base ++ "/" ++ p.

(** Code that reads and fills [ConfigurationManager._cache], the
    process-wide cache keyed by path, and may raise. *)
Definition st (A : Type) : Type :=
  gmap string pyval -> res A * gmap string pyval.

Definition st_ret {A} (a : A) : st A := fun c => (Ok a, c).

Definition st_bind {A B} (m : st A) (k : A -> st B) : st B :=
  fun c => match m c with
           | (Ok a, c') => k a c'
           | (Raise e, c') => (Raise e, c')
           end.

Definition lift {A} (r : res A) : st A := fun c => (r, c).

Notation "'let!' x := m 'in' k" := (st_bind m (fun x => k))
  (at level 200, x name, m at level 100, k at level 200).

(** What a call of [gptapi] ends in once its [except] clauses have run. *)
Inductive outcome : Type :=
| Returned (v : pyval)
(** [raise SystemExit(msg)] *)
| Exit (msg : string)
(** an exception that escapes [gptapi] *)
| Uncaught (e : exn).

Definition EMPTY_RESPONSE : string := "Received empty response from API.".

(** The [except] chain of [gptapi] in src/gptapi.py.  Python evaluates the
    class expression of each [except] clause when an exception reaches it.
    The module uses [openai.OpenAI], which exists from openai 1.0 on, where
    the [openai.error] module is gone: an exception that is neither a
    [ValidationError] nor a [CustomException] makes the third clause raise
    [AttributeError] (module 'openai' has no attribute 'error'), which
    leaves [gptapi] before the [except Exception] clause is reached. *)
Definition handle (r : res pyval) : outcome :=
  match r with
  | Ok v => Returned v
  | Raise ValidationError =>
      Exit "Validation error. Please check the structured output schema."
  | Raise (CustomException msg) => Exit msg
  | Raise _ => Uncaught (AttributeError "error")
  end.

(** [completion.choices[0].message.function_call.arguments if structured
    else completion.choices[0].message.content]; [None] is a [completion]
    that was never assigned. *)
Definition extract_result (structured : bool) (completion : option pyval) : res pyval :=
  match completion with
  | None => Raise (UnboundLocalError "completion")
  | Some c =>
      let* choices := getattr c "choices" in
      let* choice := index0 choices in
      let* message := getattr choice "message" in
      if structured then
        let* function_call := getattr message "function_call" in
        getattr function_call "arguments"
      else getattr message "content"
  end.

(** [sum([len(encoding.encode(m['content'])) for m in parameters["messages"]])] *)
Definition tokens_of_parameters (encoding : string -> list Z) (parameters : pyval)
  : res Z :=
  let* messages := getitem parameters "messages" in
  match messages with
  | PList ms => count_tokens encoding ms
  | _ => Raise TypeError
  end.

(** Lines 159-163: the token count of [parameters["messages"]] compared
    with [config['parameters']['max_tokens']]. *)
Definition batching_check (encoding_for_model : string -> option (string -> list Z))
    (config parameters : pyval) : res bool :=
  let* encoding := get_encoding encoding_for_model config in
  let* total_tokens := tokens_of_parameters encoding parameters in
  let* ps := getitem config "parameters" in
  let* max_tokens := getitem ps "max_tokens" in
  int_gt total_tokens max_tokens.

Section World.
Variable encoding_for_model : string -> option (string -> list Z).
(** The files [ConfigurationManager.load_file] can open. *)
Variable files : string -> yaml_file.
(** [OpenAIClientManager.create_completion]: the response object, or the
    exception the client raises. *)
Variable create_completion : pyval -> res pyval.
(** [Path(__file__).parent] *)
Variable here : string.

(** [ConfigurationManager.load_file]: only [yaml.YAMLError] is caught, so
    the errors of [open] and [read] escape; the [SystemExit] it raises on a
    YAML error is not caught by [except Exception]. *)
Definition load_file (path : string) : res pyval :=
  match files path with
  | Missing => Raise (FileNotFoundError path)
  | Unreadable name => Raise (OtherError name)
  | Malformed => Raise (SystemExitExn "Failed to load configuration. Exiting.")
  | Parsed v => Ok v
  end.

(** [ConfigurationManager.load_yaml] *)
Definition load_yaml (path : string) : st pyval :=
  fun cache =>
    match cache !! path with
    | Some v => (Ok v, cache)
    | None =>
        match load_file path with
        | Ok v => (Ok v, <[path := v]> cache)
        | Raise e => (Raise e, cache)
        end
    end.

(** The [try] body of [gptapi].  [Logger.setup_logging] only configures
    the logging module; its lookups are kept. *)
Definition gptapi_body (profile prompt : string) : st pyval :=
  let profile_path := path_join (path_join here PROFILES_DIR) (profile ++ ".yaml") in
  let! config := load_yaml profile_path in
  let! logging := lift (getitem config "logging") in
  let! enable := lift (getitem logging "enable") in
  let! _setup := lift (if truthy enable then
                         let* _log_file := getitem logging "log_file" in
                         let* _log_level := getitem logging "log_level" in
                         Ok tt
                       else Ok tt) in
  let! credentials_file := lift (getitem config "credentials_file") in
  let! credentials_path := lift (match credentials_file with
                                 | PStr s => Ok (path_join here s)
                                 | _ => Raise TypeError
                                 end) in
  let! credentials := load_yaml credentials_path in
  let! _api_key := lift (getitem credentials CREDENTIALS_KEY) in
  let! parameters := lift (prepare_parameters encoding_for_model config prompt) in
  let! exceeded := lift (batching_check encoding_for_model config parameters) in
  let! completion := (if exceeded then st_ret None
                      else let! c := lift (create_completion parameters) in
                           st_ret (Some c)) in
  let! so := lift (dict_get config "structured_output" (PDict [])) in
  let! structured := lift (dict_get so "enable" PNone) in
  let! result := lift (extract_result (truthy structured) completion) in
  if truthy result then st_ret result
  else lift (Raise (CustomException EMPTY_RESPONSE)).

Definition gptapi (profile prompt : string) (cache : gmap string pyval)
  : outcome * gmap string pyval :=
  let (r, cache') := gptapi_body profile prompt cache in (handle r, cache').

End World.

(** ** Concrete inputs *)

(** [d.get(k, default)] once [d] is known to be a dict. *)
Definition value_or (default : pyval) (o : option pyval) : pyval :=
  match o with Some v => v | None => default end.

Module Sample.

(** A tokenizer that knows the model "m1" and gives one token per
    character, and one that gives 4000 tokens per character. *)
Definition char_tokens : string -> option (string -> list Z) := fun m =>
  if String.eqb m "m1"
  then Some (fun s => List.map (fun a => Z.of_nat (Ascii.nat_of_ascii a))
                               (list_ascii_of_string s))
  else None.

Definition heavy_tokens : string -> option (string -> list Z) := fun _ =>
  Some (fun s => repeat 0%Z (String.length s * 4000)).

Definition sampling : pyval :=
  PDict [("max_tokens", PInt 10); ("temperature", PInt 0);
         ("top_p", PInt 1); ("n", PInt 1)].

Definition profile (structured_output : pyval) : pyval :=
  PDict [("model", PStr "m1"); ("system_prompt", PStr "S");
         ("parameters", sampling); ("structured_output", structured_output)].

Definition disabled : pyval := PDict [("enable", PBool false)].

Definition schema_x : pyval := PDict [("properties", PDict [("a", PDict [])])].

Definition enabled : pyval :=
  PDict [("enable", PBool true); ("name", PStr "x"); ("schema", schema_x)].

(** The response-shape descriptor of the spec's scenario. *)
Definition json_schema_descriptor : pyval :=
  PDict [("type", PStr "json_schema");
         ("json_schema",
           PDict [("name", PStr "x");
                  ("schema", PDict [("type", PStr "object");
                                    ("properties", PDict [("a", PDict [])]);
                                    ("required", PList []);
                                    ("additionalProperties", PBool false)]);
                  ("strict", PBool true)])].

(** 40 characters: 164000 tokens with [heavy_tokens] and the system
    prompt "S". *)
Definition long_prompt : string := "abcdefghijklmnopqrstuvwxyzABCDEFGHIJKLMN".

(** A deployment under "/app": two profiles without and with structured
    output, both with logging off and their key in "keys.yaml". *)
Definition app_profile (extra : list (string * pyval)) : pyval :=
  PDict ([("model", PStr "m1"); ("system_prompt", PStr "S");
          ("parameters", sampling);
          ("logging", PDict [("enable", PBool false)]);
          ("credentials_file", PStr "keys.yaml")] ++ extra).

Definition files : string -> yaml_file := fun p =>
  if String.eqb p "/app/profiles/plain.yaml" then Parsed (app_profile [])
  else if String.eqb p "/app/profiles/structured.yaml"
  then Parsed (app_profile [("structured_output", enabled)])
  else if String.eqb p "/app/keys.yaml"
  then Parsed (PDict [("openai_api", PStr "sk")])
  else Missing.


(** A client whose response has one choice, whose message has the given
    [content] and [function_call]. *)
Definition reply (content function_call : pyval) : pyval -> res pyval := fun _ =>
  Ok (PDict [("choices", PList [PDict [("message",
        PDict [("content", content); ("function_call", function_call)])]])]).

End Sample.

(** [r] is not an [UnboundLocalError], the error of reading a local
    variable that was never assigned. *)
Definition unbound_free {A} (r : res A) : Prop :=
  match r with Raise (UnboundLocalError _) => False | _ => True end.

(** [r] is [Ok], or raises an exception that satisfies [P]. *)
Definition raises_only {A} (P : exn -> Prop) (r : res A) : Prop :=
  match r with Ok _ => True | Raise e => P e end.

(** The exceptions the [except] clauses of [gptapi] before
    [except Exception] turn into [SystemExit]. *)
Definition handled_exn (e : exn) : bool :=
  match e with ValidationError | CustomException _ => true | _ => false end.

(** ** The [gptapi] of src/gptapi-old.py *)

(** Python's [needle in s] for strings. *)
Fixpoint str_contains (needle s : string) : bool :=
  String.prefix needle s ||
  match s with EmptyString => false | String _ s' => str_contains needle s' end.

Module OldApi.

(** The [except] clauses of the old [gptapi]: [BadRequestError] is the one
    imported from [openai]; [except Exception] catches everything but the
    [SystemExit] raised inside the [try], which propagates. *)
Definition handle (r : res pyval) : outcome :=
  match r with
  | Ok v => Returned v
  | Raise ValidationError =>
      Exit "Validation error. Please check the structured output schema."
  | Raise (CustomException msg) => Exit msg
  | Raise (BadRequestError msg) =>
      if str_contains "context_length_exceeded" msg
      then Exit "Token context length exceeded. Please adjust the input."
      else Exit ("Unexpected API error: " ++ msg)
  | Raise (SystemExitExn msg) => Exit msg
  | Raise _ => Exit "An unexpected error occurred. Please try again later."
  end.

Section World.
Variable encoding_for_model : string -> option (string -> list Z).
Variable files : string -> yaml_file.
Variable create_completion : pyval -> res pyval.
Variable here : string.

(** The [try] body of the old [gptapi]: [APICallPreparer(config, prompt)]
    starts at [cut_attempt = 0], and the completion is requested with no
    token check of its own. *)
Definition gptapi_body (profile prompt : string) : st pyval :=
  let profile_path := path_join (path_join here PROFILES_DIR) (profile ++ ".yaml") in
  let! config := load_yaml files profile_path in
  let! logging := lift (getitem config "logging") in
  let! enable := lift (getitem logging "enable") in
  let! _setup := lift (if truthy enable then
                         let* _log_file := getitem logging "log_file" in
                         let* _log_level := getitem logging "log_level" in
                         Ok tt
                       else Ok tt) in
  let! credentials_file := lift (getitem config "credentials_file") in
  let! credentials_path := lift (match credentials_file with
                                 | PStr s => Ok (path_join here s)
                                 | _ => Raise TypeError
                                 end) in
  let! credentials := load_yaml files credentials_path in
  let! _api_key := lift (getitem credentials CREDENTIALS_KEY) in
  let! parameters := lift (Old.prepare_parameters encoding_for_model config prompt 0) in
  let! completion := lift (create_completion parameters) in
  let! so := lift (dict_get config "structured_output" (PDict [])) in
  let! structured := lift (dict_get so "enable" PNone) in
  let! result := lift (extract_result (truthy structured) (Some completion)) in
  if truthy result then st_ret result
  else lift (Raise (CustomException EMPTY_RESPONSE)).

Definition gptapi (profile prompt : string) (cache : gmap string pyval)
  : outcome * gmap string pyval :=
  let (r, cache') := gptapi_body profile prompt cache in (handle r, cache').

End World.
End OldApi.

(** ** [Logger.setup_logging] *)

Module Logging.

Definition LOG_FORMAT : string := "%(asctime)s - %(levelname)s - %(message)s".

(** The library calls [setup_logging] makes. *)
Inductive call : Type :=
| Mkdir (dir : string)                 (* [log_dir.mkdir(parents=True, exist_ok=True)] *)
| BasicConfig (filename : string) (level : pyval) (format : string).

(** [Logger._configured] and the library calls made so far. *)
Record logger : Type := { configured : bool; calls : list call }.

Section Lib.
(** [Path(log_file).parent] *)
Variable parent : string -> string.
(** Whether a library call returns or raises. *)
Variable run : call -> res unit.

Definition setup_logging (s : logger) (log_file log_level : pyval) : res unit * logger :=
  if configured s then (Ok tt, s)
  else
    match log_file with
    | PStr f =>
        let mk := Mkdir (parent f) in
        let s1 := {| configured := false; calls := calls s ++ [mk] |} in
        match run mk with
        | Raise e => (Raise e, s1)
        | Ok _ =>
            let bc := BasicConfig f log_level LOG_FORMAT in
            let s2 := {| configured := false; calls := calls s1 ++ [bc] |} in
            match run bc with
            | Raise e => (Raise e, s2)
            | Ok _ => (Ok tt, {| configured := true; calls := calls s2 |})
            end
        end
    | _ => (Raise TypeError, s)          (* [Path(log_file)] of a non-string *)
    end.

End Lib.
End Logging.

(** ** The caller in src/example.py *)

Module Example.

(** What [main] ends in. *)
Inductive main_outcome : Type :=
(** [print(...)] of the value, then a normal return *)
| Printed (v : pyval)
(** a [SystemExit] that leaves [main] *)
| MainExit (msg : string).

Section Run.
Variable encoding_for_model : string -> option (string -> list Z).
Variable files : string -> yaml_file.
Variable create_completion : pyval -> res pyval.
Variable here : string.
(** [open(file_path, 'r', encoding='utf-8')] and [file.read()]: the text,
    or the exception raised ([FileNotFoundError] for a missing file). *)
Variable read_text : string -> res string.

(** [read_prompt_from_file]: [SystemExit] is no [Exception], so it is
    not caught by [except Exception]. *)
Definition read_prompt_from_file (file_path : string) : res string :=
  match read_text file_path with
  | Ok prompt => Ok prompt
  | Raise (FileNotFoundError _) =>
      Raise (SystemExitExn ("Error: The file " ++ file_path ++ " was not found."))
  | Raise (SystemExitExn msg) => Raise (SystemExitExn msg)
  | Raise _ => Raise (SystemExitExn ("Error: Unable to read the file " ++ file_path ++ "."))
  end.

Definition ERROR_MESSAGE : string := "An error occurred. Please check the logs for more details.".

(** [main]: the [except Exception] clause prints a fixed message; a
    [SystemExit] propagates. *)
Definition main (cache : gmap string pyval) : main_outcome * gmap string pyval :=
  match read_prompt_from_file "./input.txt" with
  | Ok prompt =>
      let (o, cache') :=
        gptapi encoding_for_model files create_completion here "webvulnscraper" prompt cache in
      (match o with
       | Returned result => Printed result
       | Exit msg => MainExit msg
       | Uncaught _ => Printed (PStr ERROR_MESSAGE)
       end, cache')
  | Raise (SystemExitExn msg) => (MainExit msg, cache)
  | Raise _ => (Printed (PStr ERROR_MESSAGE), cache)
  end.

End Run.
End Example.

(** The entries [cache'] has beyond [cache]: [cache'] keeps every entry of
    [cache], and each entry it adds is a path [allowed] with the parsed
    content of its file. *)
Definition cache_extends (files : string -> yaml_file) (allowed : string -> Prop)
    (cache cache' : gmap string pyval) : Prop :=
  cache ⊆ cache' /\
  forall p v, cache !! p = None -> cache' !! p = Some v ->
    files p = Parsed v /\ allowed p.

(** ** Proofs *)

Ltac case_bind :=
  match goal with
  | |- context [bind ?m _] =>
      let E := fresh "E" in destruct m eqn:E; cbn [bind]
  | |- context [if ?b then _ else _] =>
      let E := fresh "E" in destruct b eqn:E
  end.

Lemma dict_lookup_set k k' v kvs :
  dict_lookup k (dict_set k' v kvs) =
  if String.eqb k k' then Some v else dict_lookup k kvs.
Proof.
  induction kvs as [|[k0 v0] kvs IH]; simpl.
  - destruct (String.eqb k k'); reflexivity.
  - destruct (String.eqb k' k0) eqn:E1; simpl.
    + apply String.eqb_eq in E1; subst. destruct (String.eqb k k0); reflexivity.
    + destruct (String.eqb k k0) eqn:E2; [|apply IH].
      apply String.eqb_eq in E2; subst. rewrite String.eqb_sym, E1. reflexivity.
Qed.

Lemma prepare_parameters_inv enc config prompt p :
  prepare_parameters enc config prompt = Ok p ->
  exists messages, build_messages config prompt = Ok messages /\
                   assemble_parameters config messages = Ok p.
Proof.
  unfold prepare_parameters.
  repeat case_bind; try discriminate.
  intro H. eauto.
Qed.

Lemma getitem_dict_get o k v d : getitem o k = Ok v -> dict_get o k d = Ok v.
Proof.
  destruct o; simpl; try discriminate.
  destruct (dict_lookup k kvs); congruence.
Qed.

Lemma dict_get_getitem kvs k d :
  dict_get (PDict kvs) k d = Ok (value_or d (dict_lookup k kvs)).
Proof. simpl. destruct (dict_lookup k kvs); reflexivity. Qed.

(** The parameters dict [assemble_parameters] returns: the literal of lines
    104-114, updated with the two function-calling keys when structured
    output is enabled. *)
Lemma assemble_parameters_inv config messages p :
  assemble_parameters config messages = Ok p ->
  exists model pkvs max_tokens temperature top_p n extra,
    getitem config "model" = Ok model /\
    getitem config "parameters" = Ok (PDict pkvs) /\
    dict_lookup "max_tokens" pkvs = Some max_tokens /\
    dict_lookup "temperature" pkvs = Some temperature /\
    dict_lookup "top_p" pkvs = Some top_p /\
    dict_lookup "n" pkvs = Some n /\
    p = PDict (dict_update extra
      [("model", model); ("messages", PList messages); ("max_tokens", max_tokens);
       ("temperature", temperature); ("top_p", top_p); ("n", n);
       ("stop", value_or PNone (dict_lookup "stop" pkvs));
       ("frequency_penalty",
          value_or (PFloat float_zero) (dict_lookup "frequency_penalty" pkvs));
       ("presence_penalty",
          value_or (PFloat float_zero) (dict_lookup "presence_penalty" pkvs))]) /\
    (extra = [] \/ exists functions function_call,
        extra = [("functions", functions); ("function_call", function_call)]).
Proof.
  unfold assemble_parameters.
  destruct (getitem config "model") as [model|e] eqn:Em; cbn [bind]; [|discriminate].
  destruct (getitem config "parameters") as [ps|e] eqn:Eps; cbn [bind]; [|discriminate].
  destruct ps as [| | | | | |pkvs];
    try (simpl; discriminate).
  simpl getitem. simpl dict_get.
  destruct (dict_lookup "max_tokens" pkvs) as [mt|] eqn:E1; cbn [bind]; [|discriminate].
  destruct (dict_lookup "temperature" pkvs) as [te|] eqn:E2; cbn [bind]; [|discriminate].
  destruct (dict_lookup "top_p" pkvs) as [tp|] eqn:E3; cbn [bind]; [|discriminate].
  destruct (dict_lookup "n" pkvs) as [n|] eqn:E4; cbn [bind]; [|discriminate].
  destruct (dict_lookup "stop" pkvs) eqn:E5; cbn [bind];
  destruct (dict_lookup "frequency_penalty" pkvs) eqn:E6; cbn [bind];
  destruct (dict_lookup "presence_penalty" pkvs) eqn:E7; cbn [bind];
  (destruct (dict_get config "structured_output" (PDict [])) as [so|e]; cbn [bind];
     [|discriminate]);
  (destruct (dict_get so "enable" PNone) as [en|e]; cbn [bind]; [|discriminate]);
  (destruct (truthy en);
     [ destruct (getitem config "structured_output") as [so'|e]; cbn [bind];
         [|discriminate];
       destruct (getitem so' "schema") as [sc|e]; cbn [bind]; [|discriminate];
       intro H; injection H as <-;
       exists model, pkvs, mt, te, tp, n,
         [("functions", PList [PDict [("name", PStr function_name);
                                      ("description", PStr function_description);
                                      ("parameters", sc)]]);
          ("function_call", PDict [("name", PStr function_name)])];
       repeat split; try (rewrite ?E5, ?E6, ?E7; reflexivity); eauto
     | intro H; injection H as <-;
       exists model, pkvs, mt, te, tp, n, [];
       repeat split; try (rewrite ?E5, ?E6, ?E7; reflexivity); auto ]).
Qed.

Lemma dict_lookup_in k kvs v : dict_lookup k kvs = Some v -> In v (List.map snd kvs).
Proof.
  induction kvs as [|[k0 v0] kvs IH]; simpl; [discriminate|].
  destruct (String.eqb k k0); [injection 1 as <-; left; reflexivity|].
  intro H. right. apply IH, H.
Qed.

(** C6: whenever [prepare_parameters] (src/gptapi.py) returns parameters,
    their "messages" entry is exactly two dicts: role "system" with the
    profile's [system_prompt], then role "user" with the prompt string
    itself, unchanged. *)
Theorem prepare_parameters_messages enc config prompt p :
  prepare_parameters enc config prompt = Ok p ->
  exists system_prompt,
    getitem config "system_prompt" = Ok system_prompt /\
    getitem p "messages" =
      Ok (PList [PDict [("role", PStr "system"); ("content", system_prompt)];
                 PDict [("role", PStr "user"); ("content", PStr prompt)]]).
Proof.
  intro H. apply prepare_parameters_inv in H as [messages [Hb Ha]].
  unfold build_messages in Hb.
  destruct (getitem config "system_prompt") as [sp|e]; cbn [bind] in Hb;
    [|discriminate].
  injection Hb as <-.
  apply assemble_parameters_inv in Ha
    as (model & pkvs & mt & te & tp & n & extra & _ & _ & _ & _ & _ & _ & -> & Hx).
  exists sp. split; [reflexivity|].
  destruct Hx as [-> | (f & fc & ->)]; reflexivity.
Qed.

Lemma prepare_parameters_messages_witness :
  exists p,
    prepare_parameters Sample.char_tokens (Sample.profile Sample.disabled) "hello" = Ok p /\
    exists system_prompt,
      getitem (Sample.profile Sample.disabled) "system_prompt" = Ok system_prompt /\
      getitem p "messages" =
        Ok (PList [PDict [("role", PStr "system"); ("content", system_prompt)];
                   PDict [("role", PStr "user"); ("content", PStr "hello")]]).
Proof.
  eexists. split.
  - vm_compute. reflexivity.
  - apply (prepare_parameters_messages Sample.char_tokens
             (Sample.profile Sample.disabled) "hello").
    vm_compute. reflexivity.
Defined.

(** C7: whenever [prepare_parameters] returns parameters, the profile's
    [parameters] is a dict whose [max_tokens], [temperature], [top_p] and
    [n] are present and copied as they are, and [stop],
    [frequency_penalty] and [presence_penalty] are copied when present and
    are [None], [0.0] and [0.0] otherwise. *)
Theorem prepare_parameters_sampling enc config prompt p :
  prepare_parameters enc config prompt = Ok p ->
  exists pkvs,
    getitem config "parameters" = Ok (PDict pkvs) /\
    (forall k, In k ["max_tokens"; "temperature"; "top_p"; "n"] ->
       exists v, dict_lookup k pkvs = Some v /\ getitem p k = Ok v) /\
    getitem p "stop" = Ok (value_or PNone (dict_lookup "stop" pkvs)) /\
    getitem p "frequency_penalty" =
      Ok (value_or (PFloat float_zero) (dict_lookup "frequency_penalty" pkvs)) /\
    getitem p "presence_penalty" =
      Ok (value_or (PFloat float_zero) (dict_lookup "presence_penalty" pkvs)).
Proof.
  intro H. apply prepare_parameters_inv in H as [messages [_ Ha]].
  apply assemble_parameters_inv in Ha
    as (model & pkvs & mt & te & tp & n & extra & _ & Eps & E1 & E2 & E3 & E4 & -> & Hx).
  exists pkvs.
  destruct Hx as [-> | (f & fc & ->)];
    (split; [exact Eps|]; split;
     [ intros k [<-|[<-|[<-|[<-|[]]]]]; eexists; split; eauto; reflexivity
     | repeat split ]).
Qed.

Lemma prepare_parameters_sampling_witness :
  exists p,
    prepare_parameters Sample.char_tokens (Sample.profile Sample.disabled) "hello" = Ok p /\
    exists pkvs,
      getitem (Sample.profile Sample.disabled) "parameters" = Ok (PDict pkvs) /\
      (forall k, In k ["max_tokens"; "temperature"; "top_p"; "n"] ->
         exists v, dict_lookup k pkvs = Some v /\ getitem p k = Ok v) /\
      getitem p "stop" = Ok (value_or PNone (dict_lookup "stop" pkvs)) /\
      getitem p "frequency_penalty" =
        Ok (value_or (PFloat float_zero) (dict_lookup "frequency_penalty" pkvs)) /\
      getitem p "presence_penalty" =
        Ok (value_or (PFloat float_zero) (dict_lookup "presence_penalty" pkvs)).
Proof.
  eexists. split.
  - vm_compute. reflexivity.
  - apply (prepare_parameters_sampling Sample.char_tokens
             (Sample.profile Sample.disabled) "hello").
    vm_compute. reflexivity.
Defined.

(** C2, counterexample: with the spec's scenario profile
    ([structured_output: {enable: true, name: "x", schema: {properties:
    {a: {}}}}]) and prompt "hello", [prepare_parameters] succeeds, but no
    entry of the parameters it returns is the [json_schema] response-shape
    descriptor of the claim. *)
Lemma prepare_parameters_no_json_schema :
  ~ (exists p,
       prepare_parameters Sample.char_tokens (Sample.profile Sample.enabled) "hello" = Ok p /\
       exists k, getitem p k = Ok Sample.json_schema_descriptor).
Proof.
  intros [p [Hp [k Hk]]].
  vm_compute in Hp. injection Hp as <-.
  unfold getitem in Hk.
  destruct (dict_lookup k _) eqn:E; [|discriminate].
  injection Hk as ->.
  apply dict_lookup_in in E.
  vm_compute in E.
  repeat (destruct E as [E|E]; [discriminate E|]). exact E.
Qed.

(** C2, as the code does it: when [structured_output.enable] is truthy,
    the returned parameters carry [functions = [{name: "format_response",
    description: ..., parameters: <structured_output.schema, unchanged>}]]
    and [function_call = {name: "format_response"}], and no
    [response_format] entry. *)
Theorem prepare_parameters_structured enc config prompt p so enable :
  prepare_parameters enc config prompt = Ok p ->
  getitem config "structured_output" = Ok so ->
  getitem so "enable" = Ok enable ->
  truthy enable = true ->
  exists schema,
    getitem so "schema" = Ok schema /\
    getitem p "functions" =
      Ok (PList [PDict [("name", PStr "format_response");
                        ("description", PStr function_description);
                        ("parameters", schema)]]) /\
    getitem p "function_call" = Ok (PDict [("name", PStr "format_response")]) /\
    getitem p "response_format" = Raise (KeyError "response_format").
Proof.
  intros H Hso Hen Ht.
  apply prepare_parameters_inv in H as [messages [_ Ha]].
  revert Ha. unfold assemble_parameters.
  rewrite (getitem_dict_get _ _ _ _ Hso). cbn [bind].
  rewrite (getitem_dict_get _ _ _ _ Hen). cbn [bind].
  rewrite Ht, Hso. cbn [bind].
  repeat case_bind; try discriminate.
  intro H. injection H as <-.
  eexists. repeat split.
Qed.

Lemma prepare_parameters_structured_witness :
  exists p,
    prepare_parameters Sample.char_tokens (Sample.profile Sample.enabled) "hello" = Ok p /\
    getitem (Sample.profile Sample.enabled) "structured_output" = Ok Sample.enabled /\
    getitem Sample.enabled "enable" = Ok (PBool true) /\
    truthy (PBool true) = true /\
    exists schema,
      getitem Sample.enabled "schema" = Ok schema /\
      getitem p "functions" =
        Ok (PList [PDict [("name", PStr "format_response");
                          ("description", PStr function_description);
                          ("parameters", schema)]]) /\
      getitem p "function_call" = Ok (PDict [("name", PStr "format_response")]) /\
      getitem p "response_format" = Raise (KeyError "response_format").
Proof.
  eexists. split; [vm_compute; reflexivity|].
  split; [reflexivity|]. split; [reflexivity|]. split; [reflexivity|].
  apply (prepare_parameters_structured Sample.char_tokens
           (Sample.profile Sample.enabled) "hello" _ Sample.enabled (PBool true));
    vm_compute; reflexivity.
Defined.

(** *** The overflow policy of src/gptapi-old.py *)

Lemma prepare_fuel_S enc f config prompt k :
  Old.prepare_fuel enc (S f) config prompt k =
  match Old.message_tokens enc config prompt with
  | Raise e => Some (Raise e)
  | Ok total =>
    if (Old.MAX_INPUT_TOKENS <? total)%Z then
      if (Old.CUTS <=? k)%nat then
        Some (Raise (CustomException "Input too large, and maximum cuts exceeded."))
      else
        match Old.cut prompt with
        | Raise e => Some (Raise e)
        | Ok (first_half, second_half) =>
            Old.rec_step (Old.prepare_fuel enc f config first_half (S k))
              (fun first_parameters =>
               Old.rec_step (Old.prepare_fuel enc f config second_half (S k))
                 (fun _ => Some (Ok first_parameters)))
        end
    else
      match build_messages config prompt with
      | Raise e => Some (Raise e)
      | Ok messages => Some (assemble_parameters config messages)
      end
  end.
Proof.
  cbn [Old.prepare_fuel]. unfold Old.message_tokens.
  destruct (build_messages config prompt); cbn [bind Old.step]; [|reflexivity].
  destruct (get_encoding enc config); cbn [bind Old.step]; [|reflexivity].
  match goal with |- context [count_tokens ?e ?m] =>
    destruct (count_tokens e m) as [total|e']; cbn [bind Old.step]; [|reflexivity] end.
  destruct (Old.MAX_INPUT_TOKENS <? total)%Z; [|reflexivity].
  destruct (Old.CUTS <=? k)%nat; [reflexivity|].
  destruct (Old.cut prompt) as [[fh sh]|e]; reflexivity.
Qed.

(** With [CUTS - cut_attempt] more levels of fuel than the call itself,
    the recursion never runs out. *)
Lemma prepare_fuel_total enc :
  forall fuel config prompt k,
    (Old.CUTS - k < fuel)%nat -> Old.prepare_fuel enc fuel config prompt k <> None.
Proof.
  induction fuel as [|f IH]; intros config prompt k Hf; [lia|].
  rewrite prepare_fuel_S.
  destruct (Old.message_tokens enc config prompt) as [total|e]; [|discriminate].
  destruct (Old.MAX_INPUT_TOKENS <? total)%Z.
  - destruct (Old.CUTS <=? k)%nat eqn:Hk; [discriminate|].
    apply Nat.leb_gt in Hk.
    destruct (Old.cut prompt) as [[fh sh]|e]; [|discriminate].
    pose proof (IH config fh (S k) ltac:(lia)) as H1.
    pose proof (IH config sh (S k) ltac:(lia)) as H2.
    destruct (Old.prepare_fuel enc f config fh (S k)) as [[p1|e]|]; simpl;
      [|discriminate|contradiction].
    destruct (Old.prepare_fuel enc f config sh (S k)) as [[p2|e]|]; simpl;
      [discriminate|discriminate|contradiction].
  - destruct (build_messages config prompt); discriminate.
Qed.

(** More fuel does not change a result that was reached. *)
Lemma prepare_fuel_mono enc :
  forall fuel fuel' config prompt k r,
    Old.prepare_fuel enc fuel config prompt k = Some r -> (fuel <= fuel')%nat ->
    Old.prepare_fuel enc fuel' config prompt k = Some r.
Proof.
  induction fuel as [|f IH]; intros fuel' config prompt k r H Hle; [discriminate|].
  destruct fuel' as [|f']; [lia|].
  rewrite prepare_fuel_S in H |- *.
  destruct (Old.message_tokens enc config prompt) as [total|e]; [|exact H].
  destruct (Old.MAX_INPUT_TOKENS <? total)%Z; [|exact H].
  destruct (Old.CUTS <=? k)%nat; [exact H|].
  destruct (Old.cut prompt) as [[fh sh]|e]; [|exact H].
  destruct (Old.prepare_fuel enc f config fh (S k)) as [r1|] eqn:E1;
    [|discriminate].
  rewrite (IH f' config fh (S k) r1 E1 ltac:(lia)).
  destruct r1 as [p1|e]; simpl in H |- *; [|exact H].
  destruct (Old.prepare_fuel enc f config sh (S k)) as [r2|] eqn:E2;
    [|discriminate].
  rewrite (IH f' config sh (S k) r2 E2 ltac:(lia)).
  exact H.
Qed.

(** Any fuel above [CUTS - cut_attempt] computes [Old.prepare_parameters]. *)
Lemma prepare_fuel_enough enc fuel config prompt k :
  (Old.CUTS - k < fuel)%nat ->
  Old.prepare_fuel enc fuel config prompt k =
  Some (Old.prepare_parameters enc config prompt k).
Proof.
  intro Hf.
  destruct (Old.prepare_fuel enc (S (Old.CUTS - k)) config prompt k) as [r|] eqn:E;
    [|exfalso; exact (prepare_fuel_total enc (S (Old.CUTS - k)) config prompt k ltac:(lia) E)].
  unfold Old.prepare_parameters.
  rewrite (prepare_fuel_mono enc _ fuel config prompt k r E ltac:(lia)).
  rewrite (prepare_fuel_mono enc _ Old.PY_RECURSION_LIMIT config prompt k r E).
  - reflexivity.
  - unfold Old.CUTS, Old.PY_RECURSION_LIMIT. lia.
Qed.

(** Rounding keeps the sign it is given. *)
Lemma binary_round_aux_pos mx ex lx :
  match binary_round_aux prec emax false mx ex lx with
  | S754_finite s _ _ => s = false
  | _ => True
  end.
Proof.
  unfold binary_round_aux.
  destruct (shr_fexp prec emax mx ex lx) as [mrs' e'].
  destruct (shr_fexp prec emax _ e' loc_Exact) as [mrs'' e''].
  destruct (shr_m mrs''); try exact I.
  destruct (e'' <=? emax - prec)%Z; reflexivity.
Qed.

Lemma int_of_float_pos m e ov :
  int_of_float (S754_finite false m e) = Ok ov -> (0 <= ov)%Z.
Proof.
  simpl. intro H. injection H as <-.
  destruct (0 <=? e)%Z.
  - apply Z.shiftl_nonneg. lia.
  - apply Z.shiftr_nonneg. lia.
Qed.

(** [int(n * 0.05)] is never negative. *)
Lemma overlap_of_nonneg n ov :
  (0 <= n)%Z -> Old.overlap_of n = Ok ov -> (0 <= ov)%Z.
Proof.
  unfold Old.overlap_of, float_of_int, binary_normalize.
  destruct n as [|p|p]; intros Hn H; [| |lia].
  - simpl in H. injection H as <-. lia.
  - unfold binary_round in H.
    destruct (shl_align _ _ _) as [mz ez] in H.
    pose proof (binary_round_aux_pos (Zpos mz) ez loc_Exact) as Hs.
    destruct (binary_round_aux prec emax false (Zpos mz) ez loc_Exact)
      as [s|s| |s m e]; simpl in H; try discriminate.
    + injection H as <-. lia.
    + subst s. unfold f0_05, SFmul in H.
      match type of H with
      | context [binary_round_aux ?pr ?em ?sx ?mx ?ex ?lx] =>
          change sx with false in H;
          pose proof (binary_round_aux_pos mx ex lx) as Hs';
          destruct (binary_round_aux pr em false mx ex lx)
            as [s'|s'| |s' m' e']; simpl in H; try discriminate
      end.
      * injection H as <-. lia.
      * subst s'. exact (int_of_float_pos _ _ _ H).
Qed.

(** [Old.cut]: the halves are [prompt[0 : min(midpoint + overlap, n)]] and
    [prompt[max(midpoint - overlap, 0) : n]]. *)
Lemma cut_halves prompt overlap :
  let n := Z.of_nat (String.length prompt) in
  let midpoint := (n / 2)%Z in
  Old.overlap_of n = Ok overlap ->
  Old.cut prompt =
  Ok (substring 0 (Z.to_nat (Z.min (midpoint + overlap) n)) prompt,
      substring (Z.to_nat (Z.max (midpoint - overlap) 0))
        (String.length prompt - Z.to_nat (Z.max (midpoint - overlap) 0)) prompt).
Proof.
  intros n midpoint Hov.
  assert (Hpos : (0 <= overlap)%Z)
    by (apply (overlap_of_nonneg n); [lia|exact Hov]).
  assert (Hmid : (0 <= midpoint <= n)%Z)
    by (subst midpoint; split; [apply Z.div_pos|apply Z.div_le_upper_bound]; lia).
  unfold Old.cut. fold n. fold midpoint. rewrite Hov. cbn [bind].
  unfold Old.slice_to, Old.slice_from, Old.py_clamp. fold n.
  replace (Z.min (midpoint + overlap) n <? 0)%Z with false by (symmetry; apply Z.ltb_ge; lia).
  replace (Z.max (midpoint - overlap) 0 <? 0)%Z with false by (symmetry; apply Z.ltb_ge; lia).
  rewrite (Z.min_l (Z.min (midpoint + overlap) n) n) by lia.
  rewrite (Z.min_l (Z.max (midpoint - overlap) 0) n) by lia.
  reflexivity.
Qed.

Lemma rec_step_both (r1 r2 : res pyval) :
  match Old.rec_step (Some r1)
          (fun p1 => Old.rec_step (Some r2) (fun _ => Some (Ok p1))) with
  | Some r => r
  | None => Raise RecursionError
  end = (let* p1 := r1 in let* _p2 := r2 in Ok p1).
Proof. destruct r1, r2; reflexivity. Qed.

(** Every parameters dict the old [prepare_parameters] returns is built
    from the two messages of one piece of the prompt whose token count is
    within [MAX_INPUT_TOKENS]. *)
Lemma prepare_fuel_ok_inv enc :
  forall fuel config prompt k p,
    Old.prepare_fuel enc fuel config prompt k = Some (Ok p) ->
    exists piece messages total,
      build_messages config piece = Ok messages /\
      Old.message_tokens enc config piece = Ok total /\
      (total <= Old.MAX_INPUT_TOKENS)%Z /\
      assemble_parameters config messages = Ok p.
Proof.
  induction fuel as [|f IH]; intros config prompt k p H; [discriminate|].
  rewrite prepare_fuel_S in H.
  destruct (Old.message_tokens enc config prompt) as [total|e] eqn:Et;
    [|discriminate].
  destruct (Old.MAX_INPUT_TOKENS <? total)%Z eqn:Hlt.
  - destruct (Old.CUTS <=? k)%nat; [discriminate|].
    destruct (Old.cut prompt) as [[fh sh]|e]; [|discriminate].
    destruct (Old.prepare_fuel enc f config fh (S k)) as [[p1|e]|] eqn:E1;
      simpl in H; try discriminate.
    destruct (Old.prepare_fuel enc f config sh (S k)) as [[p2|e]|];
      simpl in H; try discriminate.
    injection H as <-. exact (IH _ _ _ _ E1).
  - destruct (build_messages config prompt) as [messages|e] eqn:Eb;
      [|discriminate].
    injection H as H. apply Z.ltb_ge in Hlt.
    exists prompt, messages, total. auto.
Qed.

(** C3: in src/gptapi-old.py, when the token count of the two messages
    exceeds 120000 and [cut_attempt] is below 3, [prepare_parameters] cuts
    the prompt at [midpoint = len // 2] with [overlap = int(len * 0.05)]
    into [prompt[0 : min(midpoint + overlap, len)]] and
    [prompt[max(midpoint - overlap, 0) : len]], prepares parameters for the
    first half and then for the second half, both with [cut_attempt + 1],
    and returns what the first half gave (an exception of either call
    propagates). *)
Theorem prepare_parameters_old_split enc config prompt k total overlap :
  Old.message_tokens enc config prompt = Ok total ->
  (Old.MAX_INPUT_TOKENS < total)%Z ->
  (k < Old.CUTS)%nat ->
  Old.overlap_of (Z.of_nat (String.length prompt)) = Ok overlap ->
  let n := Z.of_nat (String.length prompt) in
  let midpoint := (n / 2)%Z in
  let first_half :=
    substring 0 (Z.to_nat (Z.min (midpoint + overlap) n)) prompt in
  let second_half :=
    substring (Z.to_nat (Z.max (midpoint - overlap) 0))
      (String.length prompt - Z.to_nat (Z.max (midpoint - overlap) 0)) prompt in
  Old.prepare_parameters enc config prompt k =
    (let* first_parameters := Old.prepare_parameters enc config first_half (S k) in
     let* _second_parameters := Old.prepare_parameters enc config second_half (S k) in
     Ok first_parameters).
Proof.
  intros Et Hlt Hk Hov n midpoint first_half second_half.
  subst n midpoint first_half second_half.
  unfold Old.prepare_parameters at 1.
  change Old.PY_RECURSION_LIMIT with (S 999).
  rewrite prepare_fuel_S, Et.
  replace (Old.MAX_INPUT_TOKENS <? total)%Z with true
    by (symmetry; apply Z.ltb_lt; exact Hlt).
  replace (Old.CUTS <=? k)%nat with false
    by (symmetry; apply Nat.leb_gt; exact Hk).
  rewrite (cut_halves prompt overlap Hov).
  rewrite !(prepare_fuel_enough enc 999) by (unfold Old.CUTS in *; lia).
  apply rec_step_both.
Qed.

Lemma prepare_parameters_old_split_witness :
  Old.message_tokens Sample.heavy_tokens (Sample.profile Sample.disabled)
    Sample.long_prompt = Ok 164000%Z /\
  (Old.MAX_INPUT_TOKENS < 164000)%Z /\
  (0 < Old.CUTS)%nat /\
  Old.overlap_of (Z.of_nat (String.length Sample.long_prompt)) = Ok 2%Z /\
  (let n := Z.of_nat (String.length Sample.long_prompt) in
   let midpoint := (n / 2)%Z in
   let first_half :=
     substring 0 (Z.to_nat (Z.min (midpoint + 2) n)) Sample.long_prompt in
   let second_half :=
     substring (Z.to_nat (Z.max (midpoint - 2) 0))
       (String.length Sample.long_prompt - Z.to_nat (Z.max (midpoint - 2) 0))
       Sample.long_prompt in
   Old.prepare_parameters Sample.heavy_tokens (Sample.profile Sample.disabled)
     Sample.long_prompt 0 =
   (let* first_parameters :=
      Old.prepare_parameters Sample.heavy_tokens (Sample.profile Sample.disabled)
        first_half 1 in
    let* _second_parameters :=
      Old.prepare_parameters Sample.heavy_tokens (Sample.profile Sample.disabled)
        second_half 1 in
    Ok first_parameters)).
Proof.
  split; [vm_compute; reflexivity|].
  split; [vm_compute; reflexivity|].
  split; [unfold Old.CUTS; lia|].
  split; [vm_compute; reflexivity|].
  apply (prepare_parameters_old_split Sample.heavy_tokens
           (Sample.profile Sample.disabled) Sample.long_prompt 0 164000 2);
    first [unfold Old.CUTS; lia | vm_compute; reflexivity].
Defined.

(** C4: whenever the old [prepare_parameters] takes the overflow split and
    returns parameters, they are exactly those prepared for the first half;
    the second half is prepared too and its parameters are dropped.  On
    every path the returned parameters are built from the two messages of
    a single piece of the prompt: nothing combines the two halves. *)
Theorem prepare_parameters_old_first_half_only enc config prompt k p :
  Old.prepare_parameters enc config prompt k = Ok p ->
  (forall total first_half second_half,
     Old.message_tokens enc config prompt = Ok total ->
     (Old.MAX_INPUT_TOKENS < total)%Z ->
     Old.cut prompt = Ok (first_half, second_half) ->
     Old.prepare_parameters enc config first_half (S k) = Ok p /\
     exists second_parameters,
       Old.prepare_parameters enc config second_half (S k) = Ok second_parameters) /\
  exists piece messages,
    build_messages config piece = Ok messages /\
    assemble_parameters config messages = Ok p.
Proof.
  intro H. split.
  - intros total fh sh Et Hlt Hcut.
    revert H. unfold Old.prepare_parameters at 1.
    change Old.PY_RECURSION_LIMIT with (S 999).
    rewrite prepare_fuel_S, Et.
    replace (Old.MAX_INPUT_TOKENS <? total)%Z with true
      by (symmetry; apply Z.ltb_lt; exact Hlt).
    destruct (Old.CUTS <=? k)%nat eqn:Hk; [discriminate|].
    apply Nat.leb_gt in Hk.
    rewrite Hcut.
    rewrite !(prepare_fuel_enough enc 999) by (unfold Old.CUTS in *; lia).
    rewrite rec_step_both.
    destruct (Old.prepare_parameters enc config fh (S k)) as [p1|e];
      cbn [bind]; [|discriminate].
    destruct (Old.prepare_parameters enc config sh (S k)) as [p2|e];
      cbn [bind]; [|discriminate].
    intro H. injection H as <-. eauto.
  - revert H. unfold Old.prepare_parameters.
    destruct (Old.prepare_fuel enc Old.PY_RECURSION_LIMIT config prompt k)
      as [r|] eqn:E; [|discriminate].
    intros ->.
    destruct (prepare_fuel_ok_inv enc _ _ _ _ _ E)
      as (piece & messages & total & Hb & _ & _ & Ha).
    eauto.
Qed.

Lemma prepare_parameters_old_first_half_only_witness :
  exists p,
    Old.prepare_parameters Sample.heavy_tokens (Sample.profile Sample.disabled)
      Sample.long_prompt 0 = Ok p /\
    (forall total first_half second_half,
       Old.message_tokens Sample.heavy_tokens (Sample.profile Sample.disabled)
         Sample.long_prompt = Ok total ->
       (Old.MAX_INPUT_TOKENS < total)%Z ->
       Old.cut Sample.long_prompt = Ok (first_half, second_half) ->
       Old.prepare_parameters Sample.heavy_tokens (Sample.profile Sample.disabled)
         first_half 1 = Ok p /\
       exists second_parameters,
         Old.prepare_parameters Sample.heavy_tokens (Sample.profile Sample.disabled)
           second_half 1 = Ok second_parameters) /\
    exists piece messages,
      build_messages (Sample.profile Sample.disabled) piece = Ok messages /\
      assemble_parameters (Sample.profile Sample.disabled) messages = Ok p.
Proof.
  eexists. split; [vm_compute; reflexivity|].
  apply (prepare_parameters_old_first_half_only Sample.heavy_tokens
           (Sample.profile Sample.disabled) Sample.long_prompt 0).
  vm_compute. reflexivity.
Defined.

(** C5: in src/gptapi-old.py, when the token count still exceeds 120000
    and [cut_attempt] has reached 3, [prepare_parameters] raises
    [CustomException("Input too large, and maximum cuts exceeded.")]; and
    any parameters it does return are built from a piece of the prompt
    whose messages count at most 120000 tokens. *)
Theorem prepare_parameters_old_too_large enc config prompt k :
  (forall total,
     Old.message_tokens enc config prompt = Ok total ->
     (Old.MAX_INPUT_TOKENS < total)%Z ->
     (Old.CUTS <= k)%nat ->
     Old.prepare_parameters enc config prompt k =
       Raise (CustomException "Input too large, and maximum cuts exceeded.")) /\
  (forall p,
     Old.prepare_parameters enc config prompt k = Ok p ->
     exists piece messages total,
       build_messages config piece = Ok messages /\
       Old.message_tokens enc config piece = Ok total /\
       (total <= Old.MAX_INPUT_TOKENS)%Z /\
       assemble_parameters config messages = Ok p).
Proof.
  split.
  - intros total Et Hlt Hk.
    unfold Old.prepare_parameters.
    change Old.PY_RECURSION_LIMIT with (S 999).
    rewrite prepare_fuel_S, Et.
    replace (Old.MAX_INPUT_TOKENS <? total)%Z with true
      by (symmetry; apply Z.ltb_lt; exact Hlt).
    replace (Old.CUTS <=? k)%nat with true
      by (symmetry; apply Nat.leb_le; exact Hk).
    reflexivity.
  - intros p. unfold Old.prepare_parameters.
    destruct (Old.prepare_fuel enc Old.PY_RECURSION_LIMIT config prompt k)
      as [r|] eqn:E; [|discriminate].
    intros ->. exact (prepare_fuel_ok_inv enc _ _ _ _ _ E).
Qed.

Lemma prepare_parameters_old_too_large_witness :
  (Old.message_tokens Sample.heavy_tokens (Sample.profile Sample.disabled)
     Sample.long_prompt = Ok 164000%Z /\
   (Old.MAX_INPUT_TOKENS < 164000)%Z /\
   (Old.CUTS <= 3)%nat /\
   Old.prepare_parameters Sample.heavy_tokens (Sample.profile Sample.disabled)
     Sample.long_prompt 3 =
     Raise (CustomException "Input too large, and maximum cuts exceeded.")) /\
  exists p,
    Old.prepare_parameters Sample.heavy_tokens (Sample.profile Sample.disabled)
      Sample.long_prompt 0 = Ok p /\
    exists piece messages total,
      build_messages (Sample.profile Sample.disabled) piece = Ok messages /\
      Old.message_tokens Sample.heavy_tokens (Sample.profile Sample.disabled) piece
        = Ok total /\
      (total <= Old.MAX_INPUT_TOKENS)%Z /\
      assemble_parameters (Sample.profile Sample.disabled) messages = Ok p.
Proof.
  destruct (prepare_parameters_old_too_large Sample.heavy_tokens
              (Sample.profile Sample.disabled) Sample.long_prompt 3) as [H3 _].
  destruct (prepare_parameters_old_too_large Sample.heavy_tokens
              (Sample.profile Sample.disabled) Sample.long_prompt 0) as [_ H0].
  split.
  - split; [vm_compute; reflexivity|].
    split; [vm_compute; reflexivity|].
    split; [unfold Old.CUTS; lia|].
    apply (H3 164000%Z); [vm_compute; reflexivity | vm_compute; reflexivity |
                          unfold Old.CUTS; lia].
  - eexists. split; [vm_compute; reflexivity|].
    apply H0. vm_compute. reflexivity.
Defined.

(** C9: the recursion of the old [prepare_parameters] is bounded by 3
    nested calls below the first one, for every profile and every prompt
    (also when a cut does not shorten it): [S (CUTS - cut_attempt)] levels
    of fuel always suffice, any larger fuel gives the same result, and the
    interpreter's recursion limit is never reached. *)
Theorem prepare_parameters_old_terminates enc config prompt k :
  Old.prepare_fuel enc (S (Old.CUTS - k)) config prompt k <> None /\
  (S (Old.CUTS - k) <= 4)%nat /\
  (forall fuel, (Old.CUTS - k < fuel)%nat ->
     Old.prepare_fuel enc fuel config prompt k =
     Old.prepare_fuel enc (S (Old.CUTS - k)) config prompt k) /\
  Old.prepare_fuel enc Old.PY_RECURSION_LIMIT config prompt k <> None.
Proof.
  split; [apply prepare_fuel_total; lia|].
  split; [unfold Old.CUTS; lia|].
  split.
  - intros fuel Hf.
    rewrite (prepare_fuel_enough enc fuel) by exact Hf.
    rewrite (prepare_fuel_enough enc (S (Old.CUTS - k))) by lia.
    reflexivity.
  - apply prepare_fuel_total. unfold Old.CUTS, Old.PY_RECURSION_LIMIT. lia.
Qed.

Lemma prepare_parameters_old_terminates_witness :
  Old.prepare_fuel Sample.heavy_tokens 10 (Sample.profile Sample.disabled)
    Sample.long_prompt 0 =
  Old.prepare_fuel Sample.heavy_tokens 4 (Sample.profile Sample.disabled)
    Sample.long_prompt 0.
Proof.
  destruct (prepare_parameters_old_terminates Sample.heavy_tokens
              (Sample.profile Sample.disabled) Sample.long_prompt 0)
    as (_ & _ & H & _).
  apply (H 10). unfold Old.CUTS. lia.
Defined.

(** *** The post-preparation token check of [gptapi] *)

(** When [prepare_parameters] returned, the check of lines 159-163 sees
    the same messages, the same encoding and the same [max_tokens]: it is
    false. *)
Lemma batching_check_false enc config prompt parameters :
  prepare_parameters enc config prompt = Ok parameters ->
  batching_check enc config parameters = Ok false.
Proof.
  unfold prepare_parameters.
  destruct (build_messages config prompt) as [messages|e]; cbn [bind]; [|discriminate].
  destruct (get_encoding enc config) as [encoding|e] eqn:Ee; cbn [bind]; [|discriminate].
  destruct (count_tokens encoding messages) as [total|e] eqn:Et; cbn [bind];
    [|discriminate].
  destruct (getitem config "parameters") as [ps|e] eqn:Eps; cbn [bind]; [|discriminate].
  destruct (getitem ps "max_tokens") as [mt|e] eqn:Emt; cbn [bind]; [|discriminate].
  destruct (int_gt total mt) as [[|]|e] eqn:Eg; cbn [bind]; try discriminate.
  intro Ha.
  apply assemble_parameters_inv in Ha
    as (model & pkvs & mt' & te & tp & n & extra & _ & _ & _ & _ & _ & _ & -> & Hx).
  unfold batching_check. rewrite Ee. cbn [bind].
  unfold tokens_of_parameters.
  replace (getitem (PDict _) "messages") with (Ok (PList messages))
    by (destruct Hx as [-> | (f & fc & ->)]; reflexivity).
  cbn [bind]. rewrite Et. cbn [bind]. rewrite Eps. cbn [bind]. rewrite Emt.
  cbn [bind]. exact Eg.
Qed.


Lemma unbound_free_bind {A B} (m : res A) (k : A -> res B) :
  unbound_free m -> (forall a, m = Ok a -> unbound_free (k a)) ->
  unbound_free (bind m k).
Proof. destruct m; simpl; auto. Qed.

Lemma unbound_free_getitem o k : unbound_free (getitem o k).
Proof. destruct o; simpl; auto. destruct (dict_lookup k kvs); exact I. Qed.

Lemma unbound_free_dict_get o k d : unbound_free (dict_get o k d).
Proof. destruct o; simpl; auto. destruct (dict_lookup k kvs); exact I. Qed.

Lemma unbound_free_getattr o a : unbound_free (getattr o a).
Proof. destruct o; simpl; auto. destruct (dict_lookup a kvs); exact I. Qed.

Lemma unbound_free_index0 o : unbound_free (index0 o).
Proof. destruct o as [| | | | |[|]|]; exact I. Qed.

Lemma unbound_free_int_gt n x : unbound_free (int_gt n x).
Proof. destruct x; exact I. Qed.

Create HintDb unbound.
#[local] Hint Resolve unbound_free_getitem unbound_free_dict_get
  unbound_free_getattr unbound_free_index0 unbound_free_int_gt : unbound.

Ltac unbound_steps :=
  repeat first
    [ apply unbound_free_bind; [solve [eauto with unbound] | intros ? ?]
    | match goal with
      | |- unbound_free (match ?x with _ => _ end) => destruct x
      | |- unbound_free (if ?b then _ else _) => destruct b
      end
    | solve [eauto with unbound]
    | exact I ].

Lemma unbound_free_count_tokens encoding ms : unbound_free (count_tokens encoding ms).
Proof.
  induction ms as [|m ms IH]; simpl; [exact I|].
  apply unbound_free_bind; [apply unbound_free_getitem|intros c _].
  destruct c; try exact I. apply unbound_free_bind; [exact IH|intros; exact I].
Qed.

#[local] Hint Resolve unbound_free_count_tokens : unbound.

Lemma unbound_free_get_encoding enc config : unbound_free (get_encoding enc config).
Proof. unfold get_encoding. unbound_steps. Qed.

#[local] Hint Resolve unbound_free_get_encoding : unbound.

Lemma unbound_free_build_messages config prompt :
  unbound_free (build_messages config prompt).
Proof. unfold build_messages. unbound_steps. Qed.

Lemma unbound_free_assemble_parameters config messages :
  unbound_free (assemble_parameters config messages).
Proof. unfold assemble_parameters. unbound_steps. Qed.

#[local] Hint Resolve unbound_free_build_messages unbound_free_assemble_parameters
  : unbound.

Lemma unbound_free_prepare_parameters enc config prompt :
  unbound_free (prepare_parameters enc config prompt).
Proof. unfold prepare_parameters. unbound_steps. Qed.

Lemma unbound_free_tokens_of_parameters encoding parameters :
  unbound_free (tokens_of_parameters encoding parameters).
Proof. unfold tokens_of_parameters. unbound_steps. Qed.

#[local] Hint Resolve unbound_free_tokens_of_parameters : unbound.

Lemma unbound_free_batching_check enc config parameters :
  unbound_free (batching_check enc config parameters).
Proof. unfold batching_check. unbound_steps. Qed.

Lemma unbound_free_extract structured c :
  unbound_free (extract_result structured (Some c)).
Proof. unfold extract_result. unbound_steps. Qed.

Lemma st_bind_unbound_free {A B} (m : st A) (k : A -> st B) c :
  unbound_free (fst (m c)) ->
  (forall a c', m c = (Ok a, c') -> unbound_free (fst (k a c'))) ->
  unbound_free (fst (st_bind m k c)).
Proof.
  unfold st_bind. destruct (m c) as [[a|e] c'] eqn:E; simpl; eauto.
Qed.

Lemma unbound_free_load_yaml files path c :
  unbound_free (fst (load_yaml files path c)).
Proof.
  unfold load_yaml, load_file.
  destruct (c !! path); [exact I|].
  destruct (files path); exact I.
Qed.

Ltac unbound_leaf :=
  first [ apply unbound_free_load_yaml
        | cbn [fst lift st_ret]; unbound_steps ].

Ltac unbound_next :=
  apply st_bind_unbound_free; [unbound_leaf|intros ? ? ?].

(** C10: in the current [gptapi] the branch that would split the request
    into batches is never taken: whenever [prepare_parameters] returns, the
    recount of the same messages against the same [max_tokens] is within
    the limit.  Hence, for any client that itself never raises
    [UnboundLocalError], no run of [gptapi] reads [completion] unassigned. *)
Theorem gptapi_completion_assigned enc files create_completion here profile prompt cache :
  (forall config parameters,
      prepare_parameters enc config prompt = Ok parameters ->
      batching_check enc config parameters = Ok false) /\
  ((forall parameters, unbound_free (create_completion parameters)) ->
   unbound_free (fst (gptapi_body enc files create_completion here profile prompt cache))).
Proof.
  split.
  { intros config parameters. apply batching_check_false. }
  intro Hc. unfold gptapi_body.
  do 8 unbound_next.
  apply st_bind_unbound_free; [unbound_leaf|intros parameters c9 Ep].
  apply st_bind_unbound_free; [unbound_leaf|intros exceeded c10 Ex].
  unfold lift in Ep, Ex. injection Ep as Ep _. injection Ex as Ex _.
  apply batching_check_false in Ep. rewrite Ep in Ex. injection Ex as <-.
  apply st_bind_unbound_free.
  { cbn [fst st_bind lift st_ret]. specialize (Hc parameters).
    destruct (create_completion parameters); [exact I|exact Hc]. }
  intros completion c11 Ec.
  unfold st_bind, lift, st_ret in Ec.
  destruct (create_completion parameters) as [resp|e]; [|discriminate].
  injection Ec as <- _.
  do 2 unbound_next.
  apply st_bind_unbound_free;
    [cbn [fst lift]; apply unbound_free_extract|intros ? ? ?].
  match goal with |- context [truthy ?v] => destruct (truthy v) end; exact I.
Qed.

Lemma gptapi_completion_assigned_witness :
  (exists parameters,
      prepare_parameters Sample.char_tokens (Sample.app_profile []) "hello" = Ok parameters /\
      batching_check Sample.char_tokens (Sample.app_profile []) parameters = Ok false) /\
  (forall parameters, unbound_free (Sample.reply (PStr "hi") PNone parameters)) /\
  unbound_free (fst (gptapi_body Sample.char_tokens Sample.files
                       (Sample.reply (PStr "hi") PNone) "/app" "plain" "hello" ∅)).
Proof.
  split; [|split].
  - eexists. split; [vm_compute; reflexivity|].
    apply (proj1 (gptapi_completion_assigned Sample.char_tokens Sample.files
                    (Sample.reply (PStr "hi") PNone) "/app" "plain" "hello" ∅)).
    vm_compute. reflexivity.
  - intros. exact I.
  - apply (proj2 (gptapi_completion_assigned Sample.char_tokens Sample.files
                    (Sample.reply (PStr "hi") PNone) "/app" "plain" "hello" ∅)).
    intros. exact I.
Defined.












(** C8: in structured mode a response whose message has no function call
    ([function_call] is [None], as the SDK gives when the model answers in
    text) does not end in the empty-response exit: reading [.arguments] of
    [None] raises [AttributeError], which [gptapi] does not turn into the
    empty-response exit.  The same response in unstructured mode with null
    content, and a structured response with empty arguments, do end in the
    empty-response exit. *)
Theorem gptapi_structured_missing_function_call :
  extract_result true (Some (PDict [("choices", PList [PDict [("message",
      PDict [("content", PStr "hi"); ("function_call", PNone)])]])])) =
    Raise (AttributeError "arguments") /\
  fst (gptapi Sample.char_tokens Sample.files (Sample.reply (PStr "hi") PNone)
              "/app" "structured" "hello" ∅) = Uncaught (AttributeError "error") /\
  fst (gptapi Sample.char_tokens Sample.files (Sample.reply PNone PNone)
              "/app" "plain" "hello" ∅) = Exit EMPTY_RESPONSE /\
  fst (gptapi Sample.char_tokens Sample.files
              (Sample.reply (PStr "hi") (PDict [("arguments", PStr "")]))
              "/app" "structured" "hello" ∅) = Exit EMPTY_RESPONSE.
Proof. vm_compute. repeat split. Qed.

(** ** Further properties of the code *)

(** *** [ConfigurationManager.load_yaml] and its cache *)



Lemma load_yaml_raise files path cache e cache' :
  load_yaml files path cache = (Raise e, cache') -> cache' = cache.
Proof.
  unfold load_yaml, load_file.
  destruct (cache !! path); [discriminate|].
  destruct (files path); intro H; try discriminate; injection H as _ <-; reflexivity.
Qed.


(** X2: a failed load (a missing or unreadable file, or malformed YAML) caches nothing: the
    cache is unchanged, and the next load of the path reads the file again,
    so a file repaired in between is loaded. *)
Theorem load_yaml_failure_not_cached files path cache e cache' :
  load_yaml files path cache = (Raise e, cache') ->
  cache' = cache /\
  forall files' v, files' path = Parsed v ->
    load_yaml files' path cache' = (Ok v, <[path := v]> cache).
Proof.
  intro H. pose proof (load_yaml_raise _ _ _ _ _ H) as ->. split; [reflexivity|].
  intros files' v Hf. unfold load_yaml, load_file in H |- *.
  destruct (cache !! path); [discriminate|]. rewrite Hf. reflexivity.
Qed.

Lemma st_bind_inv (I : gmap string pyval -> Prop) {A B} (m : st A) (k : A -> st B) c :
  I (snd (m c)) ->
  (forall a c', m c = (Ok a, c') -> I c' -> I (snd (k a c'))) ->
  I (snd (st_bind m k c)).
Proof.
  unfold st_bind. destruct (m c) as [[a|e] c'] eqn:E; simpl; intros H1 H2.
  - exact (H2 a c' eq_refl H1).
  - exact H1.
Qed.

Lemma load_yaml_inv (I : gmap string pyval -> Prop) files path c :
  I c ->
  (forall v, files path = Parsed v -> c !! path = None -> I (<[path := v]> c)) ->
  I (snd (load_yaml files path c)).
Proof.
  intros H1 H2. unfold load_yaml, load_file.
  destruct (c !! path) eqn:Hc; [exact H1|].
  destruct (files path) eqn:Hf; simpl; auto.
Qed.

Lemma cache_extends_refl files allowed cache :
  cache_extends files allowed cache cache.
Proof. split; [reflexivity|]. intros p v H1 H2. congruence. Qed.

Lemma cache_extends_insert files allowed cache c path v :
  cache_extends files allowed cache c ->
  files path = Parsed v -> c !! path = None -> allowed path ->
  cache_extends files allowed cache (<[path := v]> c).
Proof.
  intros [Hsub Hnew] Hf Hc Ha. split.
  - etransitivity; [exact Hsub|]. apply insert_subseteq. exact Hc.
  - intros p w H0 H. rewrite lookup_insert in H.
    destruct (decide (path = p)) as [<-|Hne].
    + injection H as <-. auto.
    + exact (Hnew p w H0 H).
Qed.

Lemma credentials_path_shape here credentials_file a :
  match credentials_file with
  | PStr s => Ok (path_join here s)
  | _ => Raise TypeError
  end = Ok a ->
  exists s, a = path_join here s.
Proof. destruct credentials_file; intro H; try discriminate. injection H as <-. eauto. Qed.

Ltac extends_steps :=
  repeat first
    [ match goal with
      | |- cache_extends ?f ?P ?c0 (snd (st_bind _ _ _)) =>
          apply (st_bind_inv (cache_extends f P c0)); [|intros ? ? ? ?]
      | |- cache_extends ?f ?P ?c0 (snd (load_yaml _ _ _)) =>
          apply (load_yaml_inv (cache_extends f P c0));
          [first [assumption|apply cache_extends_refl]
          |intros ? ? ?; apply cache_extends_insert;
           [first [assumption|apply cache_extends_refl]|assumption|assumption|]]
      | |- cache_extends _ _ _ (snd ((if ?b then _ else _) _)) => destruct b
      end
    | progress cbn [snd lift st_ret]
    | progress cbv beta
    | assumption
    | apply cache_extends_refl
    | (left; reflexivity)
    | match goal with
      | H : lift _ _ = (Ok ?a, _) |- ?a = _ \/ _ =>
          right; eapply credentials_path_shape; injection H as H _; exact H
      end ].

(** X3: a run of [gptapi], in either version, never removes or changes an
    entry of the configuration cache, and the only entries it adds are
    files it loaded: the profile, or a path relative to the script's
    directory (the credentials file), each with its parsed content. *)
Theorem gptapi_cache_grows enc files create_completion here profile prompt cache :
  (cache ⊆ snd (gptapi enc files create_completion here profile prompt cache) /\
   forall p v, cache !! p = None ->
     snd (gptapi enc files create_completion here profile prompt cache) !! p = Some v ->
     files p = Parsed v /\
     (p = path_join (path_join here PROFILES_DIR) (profile ++ ".yaml") \/
      exists s, p = path_join here s)) /\
  (cache ⊆ snd (OldApi.gptapi enc files create_completion here profile prompt cache) /\
   forall p v, cache !! p = None ->
     snd (OldApi.gptapi enc files create_completion here profile prompt cache) !! p = Some v ->
     files p = Parsed v /\
     (p = path_join (path_join here PROFILES_DIR) (profile ++ ".yaml") \/
      exists s, p = path_join here s)).
Proof.
  split.
  - enough (H : cache_extends files
                  (fun p => p = path_join (path_join here PROFILES_DIR) (profile ++ ".yaml") \/
                            exists s, p = path_join here s)
                  cache (snd (gptapi_body enc files create_completion here profile prompt cache)))
      by (unfold gptapi; destruct (gptapi_body _ _ _ _ _ _ _); exact H).
    unfold gptapi_body. extends_steps.
  - enough (H : cache_extends files
                  (fun p => p = path_join (path_join here PROFILES_DIR) (profile ++ ".yaml") \/
                            exists s, p = path_join here s)
                  cache (snd (OldApi.gptapi_body enc files create_completion here profile prompt cache)))
      by (unfold OldApi.gptapi; destruct (OldApi.gptapi_body _ _ _ _ _ _ _); exact H).
    unfold OldApi.gptapi_body. extends_steps.
Qed.

(** *** Request building *)

Lemma count_tokens_two encoding sp prompt :
  count_tokens encoding
    [PDict [("role", PStr "system"); ("content", PStr sp)];
     PDict [("role", PStr "user"); ("content", PStr prompt)]] =
  Ok (Z.of_nat (length (encoding sp)) + Z.of_nat (length (encoding prompt)))%Z.
Proof. simpl. f_equal. lia. Qed.

Lemma raises_only_bind {A B} (P : exn -> Prop) (m : res A) (k : A -> res B) :
  raises_only P m -> (forall a, m = Ok a -> raises_only P (k a)) ->
  raises_only P (bind m k).
Proof. destruct m; simpl; auto. Qed.

Lemma quiet_getitem o k : raises_only (fun e => handled_exn e = false) (getitem o k).
Proof. destruct o; simpl; try reflexivity. destruct (dict_lookup k kvs); reflexivity. Qed.

Lemma quiet_dict_get o k d : raises_only (fun e => handled_exn e = false) (dict_get o k d).
Proof. destruct o; simpl; try reflexivity. destruct (dict_lookup k kvs); reflexivity. Qed.

Lemma quiet_getattr o a : raises_only (fun e => handled_exn e = false) (getattr o a).
Proof. destruct o; simpl; try reflexivity. destruct (dict_lookup a kvs); reflexivity. Qed.

Lemma quiet_index0 o : raises_only (fun e => handled_exn e = false) (index0 o).
Proof. destruct o as [| | | | |[|x l]|]; reflexivity. Qed.

Lemma quiet_int_gt n x : raises_only (fun e => handled_exn e = false) (int_gt n x).
Proof. destruct x; reflexivity. Qed.

Create HintDb quiet.
#[local] Hint Resolve quiet_getitem quiet_dict_get quiet_getattr quiet_index0
  quiet_int_gt : quiet.

Ltac quiet_steps :=
  repeat first
    [ apply raises_only_bind; [solve [eauto with quiet] | intros ? ?]
    | match goal with
      | |- raises_only _ (match ?x with _ => _ end) => destruct x
      | |- raises_only _ (if ?b then _ else _) => destruct b
      end
    | solve [eauto with quiet]
    | exact I
    | reflexivity ].

Lemma quiet_count_tokens encoding ms :
  raises_only (fun e => handled_exn e = false) (count_tokens encoding ms).
Proof.
  induction ms as [|m ms IH]; simpl; [exact I|].
  apply raises_only_bind; [apply quiet_getitem|intros c _].
  destruct c; try reflexivity.
  apply raises_only_bind; [exact IH|intros; exact I].
Qed.

Lemma quiet_get_encoding enc config :
  raises_only (fun e => handled_exn e = false) (get_encoding enc config).
Proof. unfold get_encoding. quiet_steps. Qed.

Lemma quiet_build_messages config prompt :
  raises_only (fun e => handled_exn e = false) (build_messages config prompt).
Proof. unfold build_messages. quiet_steps. Qed.

Lemma quiet_assemble_parameters config messages :
  raises_only (fun e => handled_exn e = false) (assemble_parameters config messages).
Proof. unfold assemble_parameters. quiet_steps. Qed.

#[local] Hint Resolve quiet_count_tokens quiet_get_encoding quiet_build_messages
  quiet_assemble_parameters : quiet.

Lemma assemble_parameters_not_custom config messages msg :
  assemble_parameters config messages <> Raise (CustomException msg).
Proof.
  intro H. pose proof (quiet_assemble_parameters config messages) as Q.
  rewrite H in Q. discriminate Q.
Qed.

(** X5: when the profile's system prompt and model are strings the
    tokenizer knows and [parameters.max_tokens] is an int, the current
    [prepare_parameters] raises "Token limit exceeded." exactly when the
    tokens of the system prompt and of the prompt together exceed
    [max_tokens]: the limit on the completion's length also bounds the
    input. *)
Theorem prepare_parameters_token_limit enc kvs prompt sp model encoding ps max_tokens :
  dict_lookup "system_prompt" kvs = Some (PStr sp) ->
  dict_lookup "model" kvs = Some (PStr model) ->
  enc model = Some encoding ->
  dict_lookup "parameters" kvs = Some ps ->
  getitem ps "max_tokens" = Ok (PInt max_tokens) ->
  (prepare_parameters enc (PDict kvs) prompt = Raise (CustomException "Token limit exceeded.") <->
   (max_tokens < Z.of_nat (length (encoding sp)) + Z.of_nat (length (encoding prompt)))%Z).
Proof.
  intros Hs Hm He Hp Hmt.
  unfold prepare_parameters, build_messages, get_encoding.
  cbn [getitem]. rewrite Hs, Hm. cbn [bind]. rewrite He. cbn [bind].
  rewrite count_tokens_two. cbn [bind getitem]. rewrite Hp. cbn [bind].
  rewrite Hmt. cbn [bind int_gt].
  destruct (Z.gtb _ max_tokens) eqn:Eg.
  - apply Z.gtb_lt in Eg. split; [intros _; exact Eg|reflexivity].
  - rewrite Z.gtb_ltb in Eg. apply Z.ltb_ge in Eg. split; [|lia].
    intro H. exfalso. exact (assemble_parameters_not_custom _ _ _ H).
Qed.

Lemma prepare_parameters_token_limit_witness :
  (prepare_parameters Sample.char_tokens
     (PDict [("model", PStr "m1"); ("system_prompt", PStr "S");
             ("parameters", PDict [("max_tokens", PInt 5)])]) "hello" =
   Raise (CustomException "Token limit exceeded.") <-> (5 < 1 + 5)%Z) /\
  (prepare_parameters Sample.char_tokens (Sample.profile Sample.disabled) "hello" =
   Raise (CustomException "Token limit exceeded.") <-> (10 < 1 + 5)%Z).
Proof.
  split.
  - exact (prepare_parameters_token_limit Sample.char_tokens
             [("model", PStr "m1"); ("system_prompt", PStr "S");
              ("parameters", PDict [("max_tokens", PInt 5)])] "hello" "S" "m1" _
             (PDict [("max_tokens", PInt 5)]) 5 eq_refl eq_refl eq_refl eq_refl eq_refl).
  - exact (prepare_parameters_token_limit Sample.char_tokens
             [("model", PStr "m1"); ("system_prompt", PStr "S");
              ("parameters", Sample.sampling); ("structured_output", Sample.disabled)]
             "hello" "S" "m1" _ Sample.sampling 10 eq_refl eq_refl eq_refl eq_refl eq_refl).
Defined.

(** The keys of the request [assemble_parameters] builds. *)
Lemma assemble_parameters_keys config messages p :
  assemble_parameters config messages = Ok p ->
  exists kvs so enable,
    p = PDict kvs /\
    dict_get config "structured_output" (PDict []) = Ok so /\
    dict_get so "enable" PNone = Ok enable /\
    (List.map fst kvs =
      ["model"; "messages"; "max_tokens"; "temperature"; "top_p"; "n"; "stop";
       "frequency_penalty"; "presence_penalty"] ++
      (if truthy enable then ["functions"; "function_call"] else []))%list.
Proof.
  intro H. unfold assemble_parameters in H.
  repeat (match type of H with
          | context [bind ?m _] =>
              let E := fresh "E" in destruct m eqn:E; cbn [bind] in H
          | context [if ?b then _ else _] =>
              let E := fresh "E" in destruct b eqn:E; cbn [bind] in H
          end; try discriminate H).
  all: injection H; intros <-; do 3 eexists; split; [reflexivity|].
  all: split; [reflexivity|]; split; [eassumption|].
  all: match goal with E : truthy _ = _ |- _ => rewrite E end; reflexivity.
Qed.

(** Both versions return only a request [assemble_parameters] built. *)
Lemma request_from_assemble enc config prompt k p :
  prepare_parameters enc config prompt = Ok p \/
  Old.prepare_parameters enc config prompt k = Ok p ->
  exists messages, assemble_parameters config messages = Ok p.
Proof.
  intros [H|H].
  - apply prepare_parameters_inv in H as (messages & _ & H). eauto.
  - revert H. unfold Old.prepare_parameters.
    destruct (Old.prepare_fuel enc Old.PY_RECURSION_LIMIT config prompt k)
      as [r|] eqn:E; [|discriminate].
    intros ->.
    destruct (prepare_fuel_ok_inv enc _ _ _ _ _ E)
      as (piece & messages & total & Hb & _ & _ & Ha).
    exists messages; exact Ha.
Qed.

(** X6: a request returned by [prepare_parameters] (either version) is a
    dict whose keys are, in this order and without repetition, model,
    messages, max_tokens, temperature, top_p, n, stop, frequency_penalty
    and presence_penalty, followed by functions and function_call exactly
    when [structured_output.enable] is truthy. *)
Theorem request_keys enc config prompt k p :
  prepare_parameters enc config prompt = Ok p \/
  Old.prepare_parameters enc config prompt k = Ok p ->
  exists kvs so enable,
    p = PDict kvs /\
    dict_get config "structured_output" (PDict []) = Ok so /\
    dict_get so "enable" PNone = Ok enable /\
    (List.map fst kvs =
      ["model"; "messages"; "max_tokens"; "temperature"; "top_p"; "n"; "stop";
       "frequency_penalty"; "presence_penalty"] ++
      (if truthy enable then ["functions"; "function_call"] else []))%list /\
    NoDup (List.map fst kvs).
Proof.
  intro H. apply request_from_assemble in H as (messages & H).
  apply assemble_parameters_keys in H as (kvs & so & enable & -> & Hso & Hen & Hk).
  exists kvs, so, enable.
  split; [reflexivity|]. split; [exact Hso|]. split; [exact Hen|]. split; [exact Hk|].
  rewrite Hk. destruct (truthy enable); cbn [app];
    apply NoDup_ListNoDup;
    repeat (apply List.NoDup_cons; [cbn [In]; intuition discriminate|]); apply List.NoDup_nil.
Qed.

Lemma request_keys_witness :
  exists p,
    prepare_parameters Sample.char_tokens (Sample.profile Sample.enabled) "hello" = Ok p /\
    exists kvs so enable,
      p = PDict kvs /\
      dict_get (Sample.profile Sample.enabled) "structured_output" (PDict []) = Ok so /\
      dict_get so "enable" PNone = Ok enable /\
      (List.map fst kvs =
        ["model"; "messages"; "max_tokens"; "temperature"; "top_p"; "n"; "stop";
         "frequency_penalty"; "presence_penalty"] ++
        (if truthy enable then ["functions"; "function_call"] else []))%list /\
      NoDup (List.map fst kvs).
Proof.
  eexists. split; [vm_compute; reflexivity|].
  apply (request_keys Sample.char_tokens (Sample.profile Sample.enabled) "hello" 0).
  left. vm_compute. reflexivity.
Defined.

Ltac bind_ok H :=
  match type of H with
  | bind ?m _ = _ =>
      let E := fresh "E" in destruct m eqn:E; cbn [bind] in H; [|discriminate H]
  end.

Lemma assemble_parameters_structured_ok config messages p :
  assemble_parameters config messages = Ok p ->
  exists skvs, dict_get config "structured_output" (PDict []) = Ok (PDict skvs) /\
    (truthy (value_or PNone (dict_lookup "enable" skvs)) = true ->
     dict_lookup "schema" skvs <> None).
Proof.
  intro H. unfold assemble_parameters in H.
  do 9 bind_ok H.
  destruct (dict_get config "structured_output" (PDict [])) as [so|e] eqn:Eso;
    cbn [bind] in H; [|discriminate H].
  destruct so as [| | | | | |skvs]; cbn [dict_get bind] in H; try discriminate H.
  exists skvs. split; [reflexivity|]. intro Ht.
  destruct (dict_lookup "enable" skvs) as [en|] eqn:Een; cbn [value_or bind] in Ht, H;
    [|discriminate Ht].
  rewrite Ht in H.
  assert (Hs : getitem config "structured_output" = Ok (PDict skvs)).
  { destruct config; try discriminate Eso. cbn [dict_get getitem] in Eso |- *.
    destruct (dict_lookup "structured_output" _); [congruence|].
    injection Eso as <-. discriminate Een. }
  rewrite Hs in H. cbn [bind getitem] in H.
  intro Hn. rewrite Hn in H. discriminate H.
Qed.

(** X7: a profile whose [structured_output] is present but not a mapping
    (e.g. left empty, i.e. null, in the YAML), or is a mapping with a
    truthy [enable] and no [schema], never yields a request, in either
    version. *)
Theorem request_needs_structured_output enc kvs prompt k :
  (forall v, dict_lookup "structured_output" kvs = Some v ->
     (forall skvs, v <> PDict skvs) ->
     forall p, prepare_parameters enc (PDict kvs) prompt <> Ok p /\
               Old.prepare_parameters enc (PDict kvs) prompt k <> Ok p) /\
  (forall skvs en, dict_lookup "structured_output" kvs = Some (PDict skvs) ->
     dict_lookup "enable" skvs = Some en -> truthy en = true ->
     dict_lookup "schema" skvs = None ->
     forall p, prepare_parameters enc (PDict kvs) prompt <> Ok p /\
               Old.prepare_parameters enc (PDict kvs) prompt k <> Ok p).
Proof.
  split.
  - intros v Hv Hnd p. split; intro H;
      [assert (H' : prepare_parameters enc (PDict kvs) prompt = Ok p \/
                    Old.prepare_parameters enc (PDict kvs) prompt k = Ok p) by (left; exact H)
      |assert (H' : prepare_parameters enc (PDict kvs) prompt = Ok p \/
                    Old.prepare_parameters enc (PDict kvs) prompt k = Ok p) by (right; exact H)];
      apply request_from_assemble in H' as (messages & Ha);
      apply assemble_parameters_structured_ok in Ha as (skvs & Hso & _);
      cbn [dict_get] in Hso; rewrite Hv in Hso; injection Hso as ->;
      exact (Hnd skvs eq_refl).
  - intros skvs en Hs He Ht Hn p. split; intro H;
      [assert (H' : prepare_parameters enc (PDict kvs) prompt = Ok p \/
                    Old.prepare_parameters enc (PDict kvs) prompt k = Ok p) by (left; exact H)
      |assert (H' : prepare_parameters enc (PDict kvs) prompt = Ok p \/
                    Old.prepare_parameters enc (PDict kvs) prompt k = Ok p) by (right; exact H)];
      apply request_from_assemble in H' as (messages & Ha);
      apply assemble_parameters_structured_ok in Ha as (skvs' & Hso & Hx);
      cbn [dict_get] in Hso; rewrite Hs in Hso; injection Hso as <-;
      rewrite He in Hx; cbn [value_or] in Hx;
      exact (Hx Ht Hn).
Qed.

Lemma request_needs_structured_output_witness :
  (dict_lookup "structured_output" [("model", PStr "m1"); ("system_prompt", PStr "S");
     ("parameters", Sample.sampling); ("structured_output", PNone)] = Some PNone /\
   (forall skvs, PNone <> PDict skvs) /\
   prepare_parameters Sample.char_tokens (Sample.profile PNone) "hello" <> Ok PNone) /\
  (dict_lookup "schema" [("enable", PBool true)] = None /\
   Old.prepare_parameters Sample.char_tokens
     (Sample.profile (PDict [("enable", PBool true)])) "hello" 0 <> Ok PNone).
Proof.
  split; [split; [reflexivity|split]|split; [reflexivity|]].
  - intros skvs. discriminate.
  - exact (proj1 (proj1 (request_needs_structured_output Sample.char_tokens
             [("model", PStr "m1"); ("system_prompt", PStr "S");
              ("parameters", Sample.sampling); ("structured_output", PNone)] "hello" 0)
             PNone eq_refl (fun skvs => ltac:(discriminate)) PNone)).
  - exact (proj2 (proj2 (request_needs_structured_output Sample.char_tokens
             [("model", PStr "m1"); ("system_prompt", PStr "S");
              ("parameters", Sample.sampling);
              ("structured_output", PDict [("enable", PBool true)])] "hello" 0)
             [("enable", PBool true)] (PBool true) eq_refl eq_refl eq_refl eq_refl PNone)).
Defined.

(** X8: when the messages count at most 120000 tokens, so that the old
    version does not cut, the two versions differ only in the current
    version's comparison [total_tokens > max_tokens], whatever
    [max_tokens] holds: when the comparison is false both build the same
    request; when it is true the current version raises "Token limit
    exceeded.", and when it raises (a [max_tokens] that is not a number)
    the current version raises that error, while in both cases the old one
    builds the request anyway. *)
Theorem old_and_current_prepare enc config prompt k total ps max_tokens :
  Old.message_tokens enc config prompt = Ok total ->
  (total <= Old.MAX_INPUT_TOKENS)%Z ->
  getitem config "parameters" = Ok ps ->
  getitem ps "max_tokens" = Ok max_tokens ->
  (int_gt total max_tokens = Ok false ->
   Old.prepare_parameters enc config prompt k = prepare_parameters enc config prompt) /\
  (int_gt total max_tokens = Ok true ->
   prepare_parameters enc config prompt = Raise (CustomException "Token limit exceeded.") /\
   Old.prepare_parameters enc config prompt k =
     (let* messages := build_messages config prompt in
      assemble_parameters config messages)) /\
  (forall e, int_gt total max_tokens = Raise e ->
   prepare_parameters enc config prompt = Raise e /\
   Old.prepare_parameters enc config prompt k =
     (let* messages := build_messages config prompt in
      assemble_parameters config messages)).
Proof.
  intros Et Hmax Hps Hmt.
  assert (Hold : Old.prepare_parameters enc config prompt k =
                 (let* messages := build_messages config prompt in
                  assemble_parameters config messages)).
  { unfold Old.prepare_parameters. change Old.PY_RECURSION_LIMIT with (S 999).
    rewrite prepare_fuel_S, Et.
    replace (Old.MAX_INPUT_TOKENS <? total)%Z with false
      by (symmetry; apply Z.ltb_ge; exact Hmax).
    destruct (build_messages config prompt); reflexivity. }
  unfold Old.message_tokens in Et.
  unfold prepare_parameters.
  destruct (build_messages config prompt) as [messages|e]; cbn [bind] in Et |- *;
    [|discriminate].
  destruct (get_encoding enc config) as [encoding|e]; cbn [bind] in Et |- *;
    [|discriminate].
  rewrite Et. cbn [bind]. rewrite Hps. cbn [bind]. rewrite Hmt. cbn [bind].
  split; [|split].
  - intro Hc. rewrite Hc, Hold. reflexivity.
  - intro Hc. rewrite Hc. split; [reflexivity|exact Hold].
  - intros e Hc. rewrite Hc. split; [reflexivity|exact Hold].
Qed.

Lemma old_and_current_prepare_witness :
  Old.message_tokens Sample.char_tokens (Sample.profile Sample.disabled) "hello" = Ok 6%Z /\
  int_gt 6 (PInt 10) = Ok false /\
  Old.prepare_parameters Sample.char_tokens (Sample.profile Sample.disabled) "hello" 0 =
    prepare_parameters Sample.char_tokens (Sample.profile Sample.disabled) "hello".
Proof.
  split; [vm_compute; reflexivity|]. split; [reflexivity|].
  apply (proj1 (old_and_current_prepare Sample.char_tokens (Sample.profile Sample.disabled)
                  "hello" 0 6 Sample.sampling (PInt 10) ltac:(vm_compute; reflexivity)
                  ltac:(unfold Old.MAX_INPUT_TOKENS; lia) eq_refl eq_refl)).
  reflexivity.
Defined.


Lemma load_yaml_failure_not_cached_witness :
  load_yaml Sample.files "/app/absent.yaml" ∅ =
    (Raise (FileNotFoundError "/app/absent.yaml"), ∅) /\
  load_yaml (fun _ => Parsed PNone) "/app/absent.yaml" ∅ =
    (Ok PNone, <["/app/absent.yaml" := PNone]> ∅).
Proof.
  assert (Hr : load_yaml Sample.files "/app/absent.yaml" (∅ : gmap string pyval) =
               (Raise (FileNotFoundError "/app/absent.yaml"), ∅)) by reflexivity.
  split; [exact Hr|].
  apply (proj2 (load_yaml_failure_not_cached _ _ _ _ _ Hr)). reflexivity.
Defined.

(** *** Cutting a prompt in the old version *)

Lemma substring_0_full s : substring 0 (String.length s) s = s.
Proof. induction s as [|c s IH]; simpl; [reflexivity|]. rewrite IH. reflexivity. Qed.

Lemma substring_split s e :
  (e <= String.length s)%nat ->
  (substring 0 e s ++ substring e (String.length s - e) s)%string = s.
Proof.
  revert e. induction s as [|c s IH]; intros e He.
  - simpl in He. assert (e = 0%nat) as -> by lia. reflexivity.
  - destruct e as [|e].
    + simpl. rewrite substring_0_full. reflexivity.
    + simpl in He |- *.
      transitivity (String c (substring 0 e s ++ substring e (String.length s - e) s));
        [reflexivity|].
      rewrite IH by lia. reflexivity.
Qed.

Lemma substring_0_length s e :
  (e <= String.length s)%nat -> String.length (substring 0 e s) = e.
Proof.
  revert e. induction s as [|c s IH]; intros e He.
  - simpl in He. assert (e = 0%nat) as -> by lia. reflexivity.
  - destruct e as [|e]; simpl in He |- *; [reflexivity|]. rewrite IH by lia. reflexivity.
Qed.

(** X9: the two halves [Old.cut] makes cover the prompt: the first half is
    a prefix of it, the second half a suffix, and the second half starts
    no later than the first one ends, so no character of the prompt is
    dropped when a too long prompt is cut. *)
Theorem cut_covers_prompt prompt first second :
  Old.cut prompt = Ok (first, second) ->
  exists rest pre,
    prompt = (first ++ rest)%string /\ prompt = (pre ++ second)%string /\
    (String.length pre <= String.length first)%nat.
Proof.
  intro H.
  destruct (Old.overlap_of (Z.of_nat (String.length prompt))) as [ov|ex] eqn:Hov.
  2:{ unfold Old.cut in H. rewrite Hov in H. discriminate H. }
  assert (Hpos : (0 <= ov)%Z) by (apply (overlap_of_nonneg (Z.of_nat (String.length prompt))); [lia|exact Hov]).
  pose proof (cut_halves prompt ov Hov) as Hc. cbv zeta in Hc.
  rewrite Hc in H. injection H as <- <-.
  set (n := String.length prompt).
  set (e := Z.to_nat (Z.min (Z.of_nat n / 2 + ov) (Z.of_nat n))).
  set (b := Z.to_nat (Z.max (Z.of_nat n / 2 - ov) 0)).
  assert (Hmid : (0 <= Z.of_nat n / 2 <= Z.of_nat n)%Z)
    by (split; [apply Z.div_pos|apply Z.div_le_upper_bound]; lia).
  assert (He : Z.of_nat e = Z.min (Z.of_nat n / 2 + ov) (Z.of_nat n))
    by (apply Z2Nat.id; lia).
  assert (Hb : Z.of_nat b = Z.max (Z.of_nat n / 2 - ov) 0)
    by (apply Z2Nat.id; lia).
  assert (Hen : (e <= n)%nat) by lia.
  assert (Hbe : (b <= e)%nat) by lia.
  exists (substring e (n - e) prompt), (substring 0 b prompt).
  split; [|split].
  - symmetry. apply substring_split. exact Hen.
  - symmetry. apply substring_split. lia.
  - rewrite !substring_0_length by lia. exact Hbe.
Qed.

Lemma cut_covers_prompt_witness :
  exists first second,
    Old.cut Sample.long_prompt = Ok (first, second) /\
    exists rest pre,
      Sample.long_prompt = (first ++ rest)%string /\
      Sample.long_prompt = (pre ++ second)%string /\
      (String.length pre <= String.length first)%nat.
Proof.
  do 2 eexists. split; [cbv; reflexivity|].
  apply cut_covers_prompt. cbv. reflexivity.
Defined.

(** X10: in the old version, when the system prompt alone has more than
    [MAX_INPUT_TOKENS] tokens, no prompt ever yields a request: cutting
    only shortens the user prompt, and every piece is still over the
    limit. *)
Theorem old_prepare_system_prompt_over_limit enc kvs sp m encoding :
  dict_lookup "system_prompt" kvs = Some (PStr sp) ->
  dict_lookup "model" kvs = Some (PStr m) ->
  enc m = Some encoding ->
  (Old.MAX_INPUT_TOKENS < Z.of_nat (length (encoding sp)))%Z ->
  forall prompt k p, Old.prepare_parameters enc (PDict kvs) prompt k <> Ok p.
Proof.
  intros Hsp Hm Henc Hlim prompt k p. unfold Old.prepare_parameters.
  destruct (Old.prepare_fuel enc Old.PY_RECURSION_LIMIT (PDict kvs) prompt k)
    as [r|] eqn:E; [|discriminate].
  intros ->.
  destruct (prepare_fuel_ok_inv enc _ _ _ _ _ E)
    as (piece & messages & total & _ & Ht & Hle & _).
  unfold Old.message_tokens, build_messages, get_encoding in Ht.
  cbn [getitem] in Ht. rewrite Hsp, Hm in Ht. cbn [bind] in Ht. rewrite Henc in Ht.
  cbn [bind] in Ht. rewrite count_tokens_two in Ht. injection Ht as <-. lia.
Qed.

Lemma old_prepare_system_prompt_over_limit_witness :
  Old.prepare_parameters Sample.heavy_tokens
    (PDict [("model", PStr "m1"); ("system_prompt", PStr Sample.long_prompt);
            ("parameters", Sample.sampling)]) "" 0 =
    Raise (CustomException "Input too large, and maximum cuts exceeded.") /\
  Old.prepare_parameters Sample.heavy_tokens
    (PDict [("model", PStr "m1"); ("system_prompt", PStr Sample.long_prompt);
            ("parameters", Sample.sampling)]) "" 0 <> Ok (PDict []).
Proof.
  split; [vm_compute; reflexivity|].
  exact (old_prepare_system_prompt_over_limit Sample.heavy_tokens
           [("model", PStr "m1"); ("system_prompt", PStr Sample.long_prompt);
            ("parameters", Sample.sampling)]
           Sample.long_prompt "m1" _ eq_refl eq_refl eq_refl
           ltac:(vm_compute; reflexivity) "" 0 (PDict [])).
Defined.

(** *** The exits of the current [gptapi] *)

Lemma raises_only_weaken {A} (P Q : exn -> Prop) (r : res A) :
  (forall e, P e -> Q e) -> raises_only P r -> raises_only Q r.
Proof. destruct r; simpl; auto. Qed.

Lemma st_raises_only_bind {A B} (P : exn -> Prop) (m : st A) (k : A -> st B) c :
  raises_only P (fst (m c)) ->
  (forall a c', m c = (Ok a, c') -> raises_only P (fst (k a c'))) ->
  raises_only P (fst (st_bind m k c)).
Proof. unfold st_bind. destruct (m c) as [[a|e] c'] eqn:E; simpl; eauto. Qed.

Lemma quiet_load_yaml files path c :
  raises_only (fun e => handled_exn e = false) (fst (load_yaml files path c)).
Proof.
  unfold load_yaml, load_file.
  destruct (c !! path); [exact I|].
  destruct (files path); reflexivity.
Qed.

Lemma quiet_tokens_of_parameters encoding parameters :
  raises_only (fun e => handled_exn e = false) (tokens_of_parameters encoding parameters).
Proof. unfold tokens_of_parameters. quiet_steps. Qed.

#[local] Hint Resolve quiet_tokens_of_parameters : quiet.

Lemma quiet_batching_check enc config parameters :
  raises_only (fun e => handled_exn e = false) (batching_check enc config parameters).
Proof. unfold batching_check. quiet_steps. Qed.

Lemma quiet_extract_result structured completion :
  raises_only (fun e => handled_exn e = false) (extract_result structured completion).
Proof. unfold extract_result. quiet_steps. Qed.

#[local] Hint Resolve quiet_load_yaml quiet_batching_check quiet_extract_result : quiet.

Lemma exits_prepare_parameters enc config prompt :
  raises_only (fun e => handled_exn e = false \/ e = CustomException "Token limit exceeded." \/
                        e = CustomException EMPTY_RESPONSE)
    (prepare_parameters enc config prompt).
Proof.
  unfold prepare_parameters.
  repeat (apply raises_only_bind;
          [apply (raises_only_weaken (fun e => handled_exn e = false)); [tauto|];
           eauto with quiet
          |intros ? ?]).
  match goal with |- raises_only _ (if ?b then _ else _) => destruct b end.
  - right. left. reflexivity.
  - apply (raises_only_weaken (fun e => handled_exn e = false)); [tauto|].
    apply quiet_assemble_parameters.
Qed.

Lemma gptapi_body_exits enc files create_completion here profile prompt cache :
  (forall parameters e, create_completion parameters = Raise e -> handled_exn e = false) ->
  raises_only (fun e => handled_exn e = false \/
                        e = CustomException "Token limit exceeded." \/
                        e = CustomException EMPTY_RESPONSE)
    (fst (gptapi_body enc files create_completion here profile prompt cache)).
Proof.
  intro Hc. unfold gptapi_body.
  repeat first
    [ apply st_raises_only_bind; [|intros ? ? ?]
    | match goal with
      | |- raises_only _ (fst ((if ?b then _ else _) _)) => destruct b
      | |- raises_only _ (create_completion ?p) =>
          let Ec := fresh "Ec" in
          destruct (create_completion p) eqn:Ec; [exact I|left; eapply Hc; exact Ec]
      end
    | progress cbn [fst lift st_ret]
    | apply exits_prepare_parameters
    | apply raises_only_bind; [|intros ? ?]
    | match goal with
      | |- raises_only _ (if ?b then _ else _) => destruct b
      | |- raises_only _ (match ?x with _ => _ end) => destruct x
      end
    | (left; reflexivity)
    | solve [apply (raises_only_weaken (fun e => handled_exn e = false)); [tauto|];
             eauto with quiet]
    | exact I
    | (right; right; reflexivity) ].
Qed.

(** X11: when the OpenAI client itself raises neither [ValidationError]
    nor [CustomException], the current [gptapi] exits ([SystemExit]) only
    with "Token limit exceeded." or "Received empty response from API.";
    every other failure escapes instead of being reported by an exit. *)
Theorem gptapi_exit_messages enc files create_completion here profile prompt cache :
  (forall parameters e, create_completion parameters = Raise e -> handled_exn e = false) ->
  forall msg,
    fst (gptapi enc files create_completion here profile prompt cache) = Exit msg ->
    msg = "Token limit exceeded." \/ msg = EMPTY_RESPONSE.
Proof.
  intros Hc msg.
  pose proof (gptapi_body_exits enc files create_completion here profile prompt cache Hc) as R.
  unfold gptapi.
  destruct (gptapi_body enc files create_completion here profile prompt cache)
    as [[v|e] c'].
  - discriminate.
  - cbn [fst] in R |- *.
    destruct e; cbn [handle]; intro H; try discriminate H; injection H as <-;
      destruct R as [R|[R|R]]; try discriminate R; injection R as <-; tauto.
Qed.

Lemma gptapi_exit_messages_witness :
  (forall parameters e,
      Sample.reply (PStr "") PNone parameters = Raise e -> handled_exn e = false) /\
  fst (gptapi Sample.char_tokens Sample.files (Sample.reply (PStr "") PNone) "/app"
         "plain" "hello" ∅) = Exit EMPTY_RESPONSE /\
  (EMPTY_RESPONSE = "Token limit exceeded." \/ EMPTY_RESPONSE = EMPTY_RESPONSE).
Proof.
  assert (Hc : forall parameters e,
             Sample.reply (PStr "") PNone parameters = Raise e -> handled_exn e = false)
    by (intros ? ? H; discriminate H).
  split; [exact Hc|]. split; [vm_compute; reflexivity|].
  apply (gptapi_exit_messages Sample.char_tokens Sample.files (Sample.reply (PStr "") PNone)
           "/app" "plain" "hello" ∅ Hc).
  vm_compute. reflexivity.
Defined.

Lemma load_yaml_fail_bind {B} (k : pyval -> st B) files path c e :
  c !! path = None -> load_file files path = Raise e ->
  st_bind (load_yaml files path) k c = (Raise e, c).
Proof. intros Hc Hl. unfold st_bind, load_yaml. rewrite Hc, Hl. reflexivity. Qed.

(** X12: a profile that is not cached and whose file is missing or is not
    valid YAML: the old [gptapi] exits with "An unexpected error occurred.
    Please try again later." or "Failed to load configuration. Exiting."
    respectively, while in the current one the [except] chain fails on
    [openai.error] and an [AttributeError] escapes. *)
Theorem gptapi_profile_load_failure enc files create_completion here profile prompt cache :
  cache !! path_join (path_join here PROFILES_DIR) (profile ++ ".yaml") = None ->
  (files (path_join (path_join here PROFILES_DIR) (profile ++ ".yaml")) = Malformed ->
   fst (OldApi.gptapi enc files create_completion here profile prompt cache) =
     Exit "Failed to load configuration. Exiting." /\
   fst (gptapi enc files create_completion here profile prompt cache) =
     Uncaught (AttributeError "error")) /\
  (files (path_join (path_join here PROFILES_DIR) (profile ++ ".yaml")) = Missing ->
   fst (OldApi.gptapi enc files create_completion here profile prompt cache) =
     Exit "An unexpected error occurred. Please try again later." /\
   fst (gptapi enc files create_completion here profile prompt cache) =
     Uncaught (AttributeError "error")).
Proof.
  intro Hc.
  assert (L : forall e,
             load_file files (path_join (path_join here PROFILES_DIR) (profile ++ ".yaml")) =
               Raise e ->
             fst (OldApi.gptapi enc files create_completion here profile prompt cache) =
               OldApi.handle (Raise e) /\
             fst (gptapi enc files create_completion here profile prompt cache) =
               handle (Raise e)).
  { intros e Hl. unfold OldApi.gptapi, OldApi.gptapi_body, gptapi, gptapi_body. cbv zeta.
    rewrite (load_yaml_fail_bind _ _ _ _ _ Hc Hl).
    rewrite (load_yaml_fail_bind _ _ _ _ _ Hc Hl).
    split; reflexivity. }
  split; intro Hf.
  - apply (L (SystemExitExn "Failed to load configuration. Exiting.")).
    unfold load_file. rewrite Hf. reflexivity.
  - apply (L (FileNotFoundError
                (path_join (path_join here PROFILES_DIR) (profile ++ ".yaml")))).
    unfold load_file. rewrite Hf. reflexivity.
Qed.

Lemma gptapi_profile_load_failure_witness :
  (fst (OldApi.gptapi Sample.char_tokens Sample.files (Sample.reply (PStr "x") PNone) "/app"
          "absent" "hello" ∅) =
     Exit "An unexpected error occurred. Please try again later." /\
   fst (gptapi Sample.char_tokens Sample.files (Sample.reply (PStr "x") PNone) "/app"
          "absent" "hello" ∅) =
     Uncaught (AttributeError "error")) /\
  (fst (OldApi.gptapi Sample.char_tokens (fun _ => Malformed) (Sample.reply (PStr "x") PNone)
          "/app" "absent" "hello" ∅) =
     Exit "Failed to load configuration. Exiting." /\
   fst (gptapi Sample.char_tokens (fun _ => Malformed) (Sample.reply (PStr "x") PNone)
          "/app" "absent" "hello" ∅) =
     Uncaught (AttributeError "error")).
Proof.
  split.
  - refine (proj2 (gptapi_profile_load_failure Sample.char_tokens Sample.files
                     (Sample.reply (PStr "x") PNone) "/app" "absent" "hello" ∅ _) _);
      reflexivity.
  - refine (proj1 (gptapi_profile_load_failure Sample.char_tokens (fun _ => Malformed)
                     (Sample.reply (PStr "x") PNone) "/app" "absent" "hello" ∅ _) _);
      reflexivity.
Defined.

(** *** [Logger.setup_logging] *)

(** X13: from an unconfigured logger, a call that returns has made exactly
    two library calls, [mkdir] of the log file's directory and then
    [logging.basicConfig] with the file, the level and [LOG_FORMAT], and
    has marked the logger configured; every later call, whatever its
    arguments and whatever the library would do, returns at once without
    any library call. *)
Theorem setup_logging_once parent run s log_file log_level s' :
  Logging.configured s = false ->
  Logging.setup_logging parent run s log_file log_level = (Ok tt, s') ->
  (exists f, log_file = PStr f /\
     s' = {| Logging.configured := true;
             Logging.calls := (Logging.calls s ++
               [Logging.Mkdir (parent f);
                Logging.BasicConfig f log_level Logging.LOG_FORMAT])%list |}) /\
  forall parent' run' log_file' log_level',
    Logging.setup_logging parent' run' s' log_file' log_level' = (Ok tt, s').
Proof.
  intros Hs H. unfold Logging.setup_logging in H. rewrite Hs in H.
  destruct log_file as [| | | |f| |]; try discriminate H.
  destruct (run (Logging.Mkdir (parent f))); [|discriminate H].
  destruct (run (Logging.BasicConfig f log_level Logging.LOG_FORMAT)); [|discriminate H].
  injection H as <-. cbn [Logging.calls]. rewrite <- app_assoc. split.
  - exists f. split; reflexivity.
  - intros. reflexivity.
Qed.

Lemma setup_logging_once_witness :
  Logging.setup_logging (fun _ => "/var/log") (fun _ => Ok tt)
    {| Logging.configured := false; Logging.calls := [] |}
    (PStr "/var/log/app.log") (PStr "INFO") =
    (Ok tt, {| Logging.configured := true;
               Logging.calls := [Logging.Mkdir "/var/log";
                                 Logging.BasicConfig "/var/log/app.log" (PStr "INFO")
                                   Logging.LOG_FORMAT] |}) /\
  Logging.setup_logging (fun _ => "") (fun _ => Raise (OtherError "OSError"))
    {| Logging.configured := true;
       Logging.calls := [Logging.Mkdir "/var/log";
                         Logging.BasicConfig "/var/log/app.log" (PStr "INFO")
                           Logging.LOG_FORMAT] |}
    PNone PNone =
    (Ok tt, {| Logging.configured := true;
               Logging.calls := [Logging.Mkdir "/var/log";
                                 Logging.BasicConfig "/var/log/app.log" (PStr "INFO")
                                   Logging.LOG_FORMAT] |}).
Proof.
  split; [reflexivity|].
  apply (proj2 (setup_logging_once (fun _ => "/var/log") (fun _ => Ok tt)
                  {| Logging.configured := false; Logging.calls := [] |}
                  (PStr "/var/log/app.log") (PStr "INFO") _ eq_refl eq_refl)).
Defined.

(** X14: a call from an unconfigured logger that raises (a [log_file] that
    is not a string, or a [mkdir] or [basicConfig] that fails) leaves the
    logger unconfigured, with the library calls it made recorded; the next
    call runs the whole setup again, and configures the logger when the
    library succeeds. *)
Theorem setup_logging_failure_retried parent run s log_file log_level e s' :
  Logging.configured s = false ->
  Logging.setup_logging parent run s log_file log_level = (Raise e, s') ->
  Logging.configured s' = false /\
  (exists made, Logging.calls s' = (Logging.calls s ++ made)%list) /\
  forall run' f log_level', (forall c, run' c = Ok tt) ->
    Logging.setup_logging parent run' s' (PStr f) log_level' =
      (Ok tt, {| Logging.configured := true;
                 Logging.calls := (Logging.calls s' ++
                   [Logging.Mkdir (parent f);
                    Logging.BasicConfig f log_level' Logging.LOG_FORMAT])%list |}).
Proof.
  intros Hs H.
  assert (Hc : Logging.configured s' = false /\
               exists made, Logging.calls s' = (Logging.calls s ++ made)%list).
  { unfold Logging.setup_logging in H. rewrite Hs in H.
    destruct log_file as [| | | |f| |];
      try (injection H as _ <-; split; [exact Hs|exists []; rewrite app_nil_r; reflexivity]).
    destruct (run (Logging.Mkdir (parent f)));
      [|injection H as _ <-; split; [reflexivity|eexists; reflexivity]].
    destruct (run (Logging.BasicConfig f log_level Logging.LOG_FORMAT));
      [discriminate H|].
    injection H as _ <-. split; [reflexivity|].
    eexists. cbn [Logging.calls]. rewrite <- app_assoc. reflexivity. }
  destruct Hc as [Hc Hm]. split; [exact Hc|]. split; [exact Hm|].
  intros run' f log_level' Hrun. unfold Logging.setup_logging. rewrite Hc, !Hrun.
  cbn [Logging.calls]. rewrite <- app_assoc. reflexivity.
Qed.

Lemma setup_logging_failure_retried_witness :
  Logging.setup_logging (fun _ => "/var/log") (fun _ => Ok tt)
    {| Logging.configured := false; Logging.calls := [] |} PNone (PStr "INFO") =
    (Raise TypeError, {| Logging.configured := false; Logging.calls := [] |}) /\
  Logging.setup_logging (fun _ => "/var/log") (fun _ => Ok tt)
    {| Logging.configured := false; Logging.calls := [] |}
    (PStr "/var/log/app.log") (PStr "INFO") =
    (Ok tt, {| Logging.configured := true;
               Logging.calls := [Logging.Mkdir "/var/log";
                                 Logging.BasicConfig "/var/log/app.log" (PStr "INFO")
                                   Logging.LOG_FORMAT] |}).
Proof.
  split; [reflexivity|].
  apply (proj2 (proj2 (setup_logging_failure_retried (fun _ => "/var/log") (fun _ => Ok tt)
                         {| Logging.configured := false; Logging.calls := [] |}
                         PNone (PStr "INFO") TypeError _ eq_refl eq_refl))).
  intro c. reflexivity.
Defined.

(** *** The caller in src/example.py *)

(** X16: when the OpenAI client raises neither [ValidationError] nor
    [CustomException] and reading the input file raises no [SystemExit],
    the [main] of src/example.py either prints a value (the result, or
    its fixed error message) or exits with one of four messages: the input
    file was not found, it could not be read, "Token limit exceeded.", or
    "Received empty response from API.". *)
Theorem example_main_exit_messages enc files create_completion here read_text cache :
  (forall parameters e, create_completion parameters = Raise e -> handled_exn e = false) ->
  (forall path msg, read_text path <> Raise (SystemExitExn msg)) ->
  forall msg,
    fst (Example.main enc files create_completion here read_text cache) = Example.MainExit msg ->
    msg = "Error: The file ./input.txt was not found." \/
    msg = "Error: Unable to read the file ./input.txt." \/
    msg = "Token limit exceeded." \/ msg = EMPTY_RESPONSE.
Proof.
  intros Hc Hr msg. unfold Example.main, Example.read_prompt_from_file.
  destruct (read_text "./input.txt") as [prompt|e] eqn:Er.
  - pose proof (gptapi_body_exits enc files create_completion here "webvulnscraper" prompt
                  cache Hc) as R.
    unfold gptapi.
    destruct (gptapi_body enc files create_completion here "webvulnscraper" prompt cache)
      as [[v|e] c'];
      cbn [fst handle]; intro H; [discriminate H|].
    cbn [fst] in R.
    destruct e; cbn [handle] in H; try discriminate H; injection H as <-;
      destruct R as [R|[R|R]]; try discriminate R; injection R as <-; tauto.
  - destruct e; cbn [fst]; intro H; try discriminate H; injection H as <-; try tauto.
    exfalso. exact (Hr _ _ Er).
Qed.

Lemma example_main_exit_messages_witness :
  fst (Example.main Sample.char_tokens Sample.files (Sample.reply (PStr "x") PNone) "/app"
         (fun p => Raise (FileNotFoundError p)) ∅) =
    Example.MainExit "Error: The file ./input.txt was not found." /\
  ("Error: The file ./input.txt was not found." = "Error: The file ./input.txt was not found." \/
   "Error: The file ./input.txt was not found." = "Error: Unable to read the file ./input.txt." \/
   "Error: The file ./input.txt was not found." = "Token limit exceeded." \/
   "Error: The file ./input.txt was not found." = EMPTY_RESPONSE).
Proof.
  split; [reflexivity|].
  apply (example_main_exit_messages Sample.char_tokens Sample.files
           (Sample.reply (PStr "x") PNone) "/app" (fun p => Raise (FileNotFoundError p)) ∅).
  - intros ? ? H. discriminate H.
  - intros ? ? H. discriminate H.
  - reflexivity.
Defined.
